(** * Telegram2txt: the export pipeline of [telegram_backup.py]

    A shallow embedding of the chat export tool: the media classifier
    ([get_media_type], [get_media_size]), the filter applied to each media
    item, the download loop with its three attempts, the transcript lines
    written to the history file, the counters of the run and the parsing of
    the command line in [main].

    Conventions of the model.
    - Python [str] is [string], a character outside ASCII being held as
      its UTF-8 bytes.  [int] is [Z], except the counters of the run, which
      only count up from zero and are [nat].
    - An attribute that [hasattr]/[getattr] may find missing is an [option].
    - The history file [f] is the list of the strings passed to [f.write],
      in order.
    - The platform client is a parameter: a world [W] and the function
      [client_download_media], which either returns or raises with an error
      text.  Calls to it and to [asyncio.sleep] are recorded in [events].
    - Console output inside the loop is a parameter too: [console_print]
      tells, for the text of a [print], whether it is printed or raises,
      and with which error text, as for a console that cannot encode some
      characters.  A [print] that raises inside [try] runs the [except]
      branch; one that raises in the handler or after the media handling
      leaves the loop, and the run ends there.
    - [f.write] always succeeds, and a [file_name], when an attribute has
      one, is a string.
    - The messages that [client.iter_messages(chat)] yields are a list; the
      connection to the platform, the lookup of the chat and the prints
      before the loop come before the part modelled here.
    - The dots of the progress callback of a download are counted by a
      model of their own ([progress_callback]). *)

From Stdlib Require Import String Ascii List ZArith NArith Bool Arith Lia.
From Stdlib Require Import DecimalString FunInd.
From Equations Require Import Equations.
Import ListNotations.

Local Open Scope string_scope.
Local Open Scope bool_scope.

(** ** Python primitives used by the program *)

Module Py.

(** The newline character written at the end of every transcript line. *)
Definition nl : string := String (ascii_of_nat 10) EmptyString.

(** [str.lower] on one character, for the ASCII letters. *)
Definition lower_ascii (c : ascii) : ascii :=
  let n := N_of_ascii c in
  if ((65 <=? n) && (n <=? 90))%N then ascii_of_N (n + 32) else c.

(** [s.lower()].  Characters outside ASCII are left as they are. *)
Fixpoint lower (s : string) : string :=
  match s with
  | EmptyString => EmptyString
  | String c rest => String (lower_ascii c) (lower rest)
  end.

(** [s.startswith(p)]. *)
Definition startswith (s p : string) : bool := String.prefix p s.

(** [sub in s] for strings. *)
Fixpoint contains (sub s : string) : bool :=
  String.prefix sub s ||
  match s with
  | EmptyString => false
  | String _ rest => contains sub rest
  end.

(** [x in l] for a list of strings. *)
Definition mem (x : string) (l : list string) : bool :=
  existsb (String.eqb x) l.

(** [str(n)] for an integer. *)
Definition str_int (n : Z) : string := NilZero.string_of_int (Z.to_int n).

(** Digits of a number taken from the least significant one, a comma
    after every third digit that is followed by another one. *)
Fixpoint group3 (rev_digits : list ascii) (k : nat) : list ascii :=
  match rev_digits with
  | [] => []
  | d :: rest =>
      match k, rest with
      | 2, _ :: _ => d :: ","%char :: group3 rest 0
      | _, _ => d :: group3 rest (S k)
      end
  end.

(** [format(n, ',')]: decimal digits grouped by thousands. *)
Definition format_comma (n : Z) : string :=
  let digits := list_ascii_of_string (str_int (Z.abs n)) in
  let grouped := string_of_list_ascii (rev (group3 (rev digits) 0)) in
  if (n <? 0)%Z then "-" ++ grouped else grouped.

(** A value that is either [None] or a string. *)
Inductive value : Type :=
| PyNone
| PyStr (s : string).

(** Truth value of such a value: [None] and [''] are false. *)
Definition truthy (v : value) : bool :=
  match v with
  | PyNone => false
  | PyStr s => negb (s =? "")
  end.

(** [a or b]. *)
Definition or_ (a b : value) : value := if truthy a then a else b.

(** [getattr(obj, name, default)], the attribute being [None] when the
    object does not have it. *)
Definition getattr (attr : option value) (default : value) : value :=
  match attr with
  | Some v => v
  | None => default
  end.

(** How an f-string renders the value. *)
Definition format (v : value) : string :=
  match v with
  | PyNone => "None"
  | PyStr s => s
  end.

(** How an f-string renders an optional string. *)
Definition format_opt (v : option string) : string :=
  match v with
  | None => "None"
  | Some s => s
  end.

(** [max(l)] for a list known to start with [x]: the first of the
    greatest elements. *)
Definition max_from (x : Z) (l : list Z) : Z :=
  fold_left (fun best y => if (best <? y)%Z then y else best) l x.

(** [s.endswith('/')]. *)
Fixpoint ends_with_sep (s : string) : bool :=
  match s with
  | EmptyString => false
  | String c EmptyString => (c =? "/")%char
  | String _ rest => ends_with_sep rest
  end.

(** [os.path.join(a, b)] of posixpath. *)
Definition path_join (a b : string) : string :=
  if startswith b "/" then b
  else if (a =? "") || ends_with_sep a then a ++ b
  else a ++ "/" ++ b.

(** [s.rfind(c)] for a character: the last index of [c], or -1. *)
Fixpoint rfind_from (c : ascii) (s : string) (i last : Z) : Z :=
  match s with
  | EmptyString => last
  | String d rest => rfind_from c rest (i + 1)%Z (if (d =? c)%char then i else last)
  end.

Definition rfind (s : string) (c : ascii) : Z := rfind_from c s 0%Z (-1)%Z.

(** The loop of [genericpath._splitext] that skips the leading dots of the
    file name: is there a character other than a dot among the [steps]
    characters from [filenameIndex] on? *)
Fixpoint splitext_scan (p : string) (filenameIndex steps : nat) : bool :=
  match steps with
  | O => false
  | S steps' =>
      match String.get filenameIndex p with
      | Some "."%char => splitext_scan p (S filenameIndex) steps'
      | _ => true
      end
  end.

(** [os.path.splitext(p)] of posixpath. *)
Definition splitext (p : string) : string * string :=
  let sepIndex := rfind p "/" in
  let dotIndex := rfind p "." in
  if (sepIndex <? dotIndex)%Z
     && splitext_scan p (Z.to_nat (sepIndex + 1)) (Z.to_nat (dotIndex - (sepIndex + 1)))
  then (substring 0 (Z.to_nat dotIndex) p,
        substring (Z.to_nat dotIndex) (String.length p - Z.to_nat dotIndex) p)
  else (p, "").

(** A decimal number padded with zeros on the left to [width] digits. *)
Definition zero_pad (width : nat) (n : N) : string :=
  let digits := str_int (Z.of_N n) in
  string_of_list_ascii (repeat "0"%char (width - String.length digits)) ++ digits.

(** The code points of a text held as its UTF-8 bytes; [acc] holds the
    code points read so far, the last one first. *)
Definition utf8_step (acc : list N) (b : N) : list N :=
  if (b <? 128)%N then b :: acc
  else if (b <? 192)%N then
    match acc with
    | cp :: rest => (cp * 64 + b mod 64)%N :: rest
    | [] => [b]
    end
  else if (b <? 224)%N then (b mod 32)%N :: acc
  else if (b <? 240)%N then (b mod 16)%N :: acc
  else (b mod 8)%N :: acc.

Definition code_points (s : string) : list N :=
  rev (fold_left utf8_step (map N_of_ascii (list_ascii_of_string s)) []).

(** [s[:n]]: the first [n] characters, each with the bytes that continue
    it. *)
Fixpoint take_chars (n : nat) (s : string) : string :=
  match s with
  | EmptyString => EmptyString
  | String c rest =>
      if ((128 <=? N_of_ascii c) && (N_of_ascii c <? 192))%N
      then String c (take_chars n rest)
      else
        match n with
        | 0 => EmptyString
        | S n' => String c (take_chars n' rest)
        end
  end.

(** [n] in [width] hexadecimal digits, as [%0<width>x] writes it. *)
Fixpoint hex_fixed (width : nat) (n : N) : string :=
  match width with
  | 0 => EmptyString
  | S w =>
      hex_fixed w (n / 16)
      ++ String (nth (N.to_nat (n mod 16)) (list_ascii_of_string "0123456789abcdef")
                     "0"%char) EmptyString
  end.

(** The number of elements at the head of [l] that satisfy [p]. *)
Fixpoint count_while (p : N -> bool) (l : list N) : nat :=
  match l with
  | [] => 0
  | x :: rest => if p x then S (count_while p rest) else 0
  end.

(** [s.encode('ascii')], as a console of that encoding does for a [print]:
    [None] when every character is ASCII, otherwise [str(e)] of the
    [UnicodeEncodeError], which names the first run of characters that
    are not. *)
Definition ascii_encode_error (s : string) : option string :=
  let cps := code_points s in
  let start := count_while (fun cp => (cp <? 128)%N) cps in
  match skipn start cps with
  | [] => None
  | cp :: rest =>
      let more := count_while (fun cp => (128 <=? cp)%N) rest in
      let escaped :=
        if (cp <=? 255)%N then "\x" ++ hex_fixed 2 cp
        else if (cp <=? 65535)%N then "\u" ++ hex_fixed 4 cp
        else "\U" ++ hex_fixed 8 cp in
      let position := str_int (Z.of_nat start) in
      Some ("'ascii' codec can't encode "
            ++ (if (more =? 0)%nat
                then "character '" ++ escaped ++ "' in position " ++ position
                else "characters in position " ++ position ++ "-"
                     ++ str_int (Z.of_nat (start + more)))
            ++ ": ordinal not in range(128)")
  end.

(** The carriage return that ends the short progress report. *)
Definition cr : string := String (ascii_of_nat 13) EmptyString.

(** How a call ends: with a value, or with an exception [e], of which
    [error] is [str(e)]. *)
Inductive result (A : Type) : Type :=
| Returns (a : A)
| Raises (error : string).

Arguments Returns {A} _.
Arguments Raises {A} _.

End Py.

(** ** Data model: what the program reads of a Telethon message *)

(** One entry of [document.attributes]: the name of its class and, when the
    entry has one, its [file_name]. *)
Record DocumentAttribute : Type := {
  type_name : string;
  file_name : option string
}.

(** [message.media.document].  [mime_type] and [size] are guarded by
    [hasattr] in the source, [attributes] is read unconditionally. *)
Record Document : Type := {
  mime_type : option string;
  attributes : list DocumentAttribute;
  size : option Z
}.

(** One entry of [photo.sizes]; not every kind of entry declares a
    [size]. *)
Record PhotoSize : Type := {
  photo_size : option Z
}.

(** [message.media.photo]; [sizes] is guarded by [hasattr]. *)
Record Photo : Type := {
  sizes : option (list PhotoSize)
}.

(** [message.media], when it is not [None].  [MessageMediaDocumentNone] is
    a [MessageMediaDocument] whose [document] is [None], as for media that
    has expired: it has no [mime_type], no [attributes] and no [size]. *)
Inductive MessageMedia : Type :=
| MessageMediaPhoto (photo : Photo)
| MessageMediaDocument (document : Document)
| MessageMediaDocumentNone
| MessageMediaOther.

(** [str(e)] of the [AttributeError] that reading [document.attributes]
    raises when the document is [None]. *)
Definition no_attributes_error : string :=
  "'NoneType' object has no attribute 'attributes'".

(** [message.sender]: both names may be missing, [None] or a string. *)
Record Sender : Type := {
  username : option Py.value;
  first_name : option Py.value
}.

(** [message.date]. *)
Record DateTime : Type := {
  year : N; month : N; day : N;
  hour : N; minute : N; second : N
}.

Record Message : Type := {
  msg_id : Z;
  sender : option Sender;
  date : option DateTime;
  message : string;
  media : option MessageMedia
}.

(** ** Media classifier *)

(** The loop over [doc.attributes] of [get_media_type]. *)
Fixpoint attributes_media_type (attrs : list DocumentAttribute) : option string :=
  match attrs with
  | [] => None
  | attr :: rest =>
      let attr_type := type_name attr in
      if Py.contains "Audio" attr_type || Py.contains "Voice" attr_type then Some "audio"
      else if Py.contains "Video" attr_type then Some "video"
      else if Py.contains "Photo" attr_type then Some "image"
      else attributes_media_type rest
  end.

(** The test on [doc.mime_type] of [get_media_type]: the class it returns,
    or [None] when control falls through to the attributes. *)
Definition mime_media_type (doc : Document) : option string :=
  match mime_type doc with
  | Some m =>
      if negb (m =? "") then
        let mime := Py.lower m in
        if Py.startswith mime "image/" then Some "image"
        else if Py.startswith mime "audio/" then Some "audio"
        else if Py.startswith mime "video/" then Some "video"
        else None
      else None
  | None => None
  end.

Definition get_media_type (msg : Message) : Py.result (option string) :=
  match media msg with
  | None => Py.Returns None
  | Some (MessageMediaPhoto _) => Py.Returns (Some "image")
  | Some (MessageMediaDocument doc) =>
      match mime_media_type doc with
      | Some t => Py.Returns (Some t)
      | None =>
          match attributes_media_type (attributes doc) with
          | Some t => Py.Returns (Some t)
          | None => Py.Returns (Some "other")
          end
      end
  | Some MessageMediaDocumentNone =>
      (* hasattr(None, 'mime_type') is false; doc.attributes raises *)
      Py.Raises no_attributes_error
  | Some MessageMediaOther => Py.Returns (Some "other")
  end.

(** [[s.size for s in photo.sizes if hasattr(s, 'size')]]. *)
Fixpoint declared_sizes (l : list PhotoSize) : list Z :=
  match l with
  | [] => []
  | s :: rest =>
      match photo_size s with
      | Some n => n :: declared_sizes rest
      | None => declared_sizes rest
      end
  end.

Definition get_media_size (msg : Message) : Z :=
  match media msg with
  | None => 0%Z
  | Some (MessageMediaDocument doc) =>
      match size doc with
      | Some n => n
      | None => 0%Z
      end
  | Some (MessageMediaPhoto photo) =>
      match sizes photo with
      | Some l =>
          match declared_sizes l with
          | [] => 0%Z
          | x :: rest => Py.max_from x rest
          end
      | None => 0%Z
      end
  | Some MessageMediaDocumentNone => 0%Z
  | Some MessageMediaOther => 0%Z
  end.

(** ** The export loop of [download_chat] *)

Record Config : Type := {
  output_dir : string;
  download_media : bool;
  media_filter : string;
  media_max_size : option Z
}.

(** What [await client.download_media(...)] does: it returns, or raises an
    exception [e] that [except Exception] catches, with
    [str(e) = error_msg]. *)
Inductive DownloadResult : Type :=
| Downloaded
| Raised (error_msg : string).

(** The calls the loop makes to the outside. *)
Inductive Event : Type :=
| EvDownload (message_id : Z) (media_path : string)
| EvSleep (seconds : Z).

(** [message.date.strftime('%Y-%m-%d %H:%M:%S')], for a year of four
    digits. *)
Definition strftime (d : DateTime) : string :=
  Py.zero_pad 4 (year d) ++ "-" ++ Py.zero_pad 2 (month d) ++ "-" ++ Py.zero_pad 2 (day d)
  ++ " " ++ Py.zero_pad 2 (hour d) ++ ":" ++ Py.zero_pad 2 (minute d) ++ ":"
  ++ Py.zero_pad 2 (second d).

(** Lines 146-150: the sender's name. *)
Definition sender_name_of (msg : Message) : Py.value :=
  match sender msg with
  | Some s =>
      Py.or_ (Py.getattr (username s) Py.PyNone)
             (Py.getattr (first_name s) (Py.PyStr "Unknown"))
  | None => Py.PyStr "Unknown"
  end.

(** Line 153: the formatted timestamp. *)
Definition timestamp_of (msg : Message) : string :=
  match date msg with
  | Some d => strftime d
  | None => ""
  end.

(** The text every [f.write] of the loop starts with:
    [[{timestamp}] <{sender_name}> ]. *)
Definition line_prefix (timestamp : string) (sender_name : Py.value) : string :=
  "[" ++ timestamp ++ "] <" ++ Py.format sender_name ++ "> ".

(** The line written for the text of a message. *)
Definition text_line (timestamp : string) (sender_name : Py.value) (text : string) : string :=
  line_prefix timestamp sender_name ++ text ++ Py.nl.

(** The line written for the media of a message. *)
Definition media_line (timestamp : string) (sender_name : Py.value) (payload : string) : string :=
  line_prefix timestamp sender_name ++ "[MEDIA: " ++ payload ++ "]" ++ Py.nl.

(** Lines 167-178: the type filter, then the size filter.  The result is
    [(should_download, skip_reason)]. *)
Definition apply_filters (media_filter : string) (media_max_size : option Z)
    (media_type : option string) (media_size : Z) : bool * option string :=
  let should_download := true in
  let skip_reason : option string := None in
  let '(should_download, skip_reason) :=
    if negb (media_filter =? "all")
       && negb (match media_type with Some t => t =? media_filter | None => false end)
    then (false, Some ("filtered (" ++ Py.format_opt media_type ++ ")"))
    else (should_download, skip_reason) in
  let '(should_download, skip_reason) :=
    if should_download
       && match media_max_size with
          | Some limit => negb (limit =? 0)%Z && (limit <? media_size)%Z
          | None => false
          end
    then (false, Some ("too large (" ++ Py.format_comma media_size ++ " bytes)"))
    else (should_download, skip_reason) in
  (should_download, skip_reason).

(** Lines 198-202: the extension of the first attribute that has a
    [file_name]. *)
Fixpoint document_extension (attrs : list DocumentAttribute) : option string :=
  match attrs with
  | [] => None
  | attr :: rest =>
      match file_name attr with
      | Some name => Some (snd (Py.splitext name))
      | None => document_extension rest
      end
  end.

(** Lines 192-202: the name of the stored file.  For a document that is
    [None] the source raises at line 198 instead; [try_download] has that
    case, and no name is used then. *)
Definition media_filename_of (msg : Message) : string :=
  let media_filename := "msg_" ++ Py.str_int (msg_id msg) in
  match media msg with
  | Some (MessageMediaPhoto _) => media_filename ++ ".jpg"
  | Some (MessageMediaDocument doc) =>
      match document_extension (attributes doc) with
      | Some ext => "msg_" ++ Py.str_int (msg_id msg) ++ ext
      | None => media_filename
      end
  | _ => media_filename
  end.

Definition max_retries : nat := 3.

(** The value of a subject together with the proof that it is that
    value, to keep the test of a loop among the hypotheses of its body. *)
Definition inspect {A : Type} (a : A) : {b : A | a = b} := exist _ a eq_refl.

(** ** Console output of the loop *)

(** Line 215: the text printed before the download. *)
Definition downloading_text (media_filename : string) : string :=
  "  Downloading " ++ media_filename ++ " ".

(** Line 227: the text printed after the download: a space, the seven
    bytes c3 a2 c5 93 e2 80 9c that the source file has there, and the end
    of the line. *)
Definition tick_text : string :=
  " " ++ string_of_list_ascii (map ascii_of_nat [195; 162; 197; 147; 226; 128; 156])
  ++ Py.nl.

(** Lines 235-238: the text printed in the handler, [retry_count] already
    incremented. *)
Definition retry_text (retry_count : nat) (error_msg : string) : string :=
  let retry :=
    "(retry " ++ Py.str_int (Z.of_nat retry_count) ++ "/"
    ++ Py.str_int (Z.of_nat max_retries) ++ ")" in
  if Py.contains "Timeout" error_msg || Py.contains "timeout" error_msg
  then " timeout " ++ retry ++ Py.nl
  else " error: " ++ Py.take_chars 50 error_msg ++ " " ++ retry ++ Py.nl.

Section ExportLoop.

Variable W : Type.
Variable client_download_media : W -> Message -> string -> W * DownloadResult.

(** [print(text)]: [None] when the text is printed, [Some error] when the
    print raises an exception [e] with [str(e) = error]. *)
Variable console_print : string -> option string.

(** The local variables of [download_chat] that the loop changes, the
    history file and the outside world. *)
Record State : Type := {
  message_count : nat;
  media_count : nat;
  media_skipped : nat;
  media_filtered : nat;
  media_failed : nat;
  f : list string;
  events : list Event;
  world : W
}.

Definition initial_state (w : W) : State :=
  {| message_count := 0; media_count := 0; media_skipped := 0;
     media_filtered := 0; media_failed := 0; f := []; events := []; world := w |}.

Definition write (line : string) (st : State) : State :=
  {| message_count := message_count st; media_count := media_count st;
     media_skipped := media_skipped st; media_filtered := media_filtered st;
     media_failed := media_failed st; f := f st ++ [line];
     events := events st; world := world st |}.

Definition emit (e : Event) (w : W) (st : State) : State :=
  {| message_count := message_count st; media_count := media_count st;
     media_skipped := media_skipped st; media_filtered := media_filtered st;
     media_failed := media_failed st; f := f st;
     events := events st ++ [e]; world := w |}.

Definition incr_message_count (st : State) : State :=
  {| message_count := message_count st + 1; media_count := media_count st;
     media_skipped := media_skipped st; media_filtered := media_filtered st;
     media_failed := media_failed st; f := f st;
     events := events st; world := world st |}.

Definition incr_media_count (st : State) : State :=
  {| message_count := message_count st; media_count := media_count st + 1;
     media_skipped := media_skipped st; media_filtered := media_filtered st;
     media_failed := media_failed st; f := f st;
     events := events st; world := world st |}.

Definition incr_media_skipped (st : State) : State :=
  {| message_count := message_count st; media_count := media_count st;
     media_skipped := media_skipped st + 1; media_filtered := media_filtered st;
     media_failed := media_failed st; f := f st;
     events := events st; world := world st |}.

Definition incr_media_filtered (st : State) : State :=
  {| message_count := message_count st; media_count := media_count st;
     media_skipped := media_skipped st; media_filtered := media_filtered st + 1;
     media_failed := media_failed st; f := f st;
     events := events st; world := world st |}.

Definition incr_media_failed (st : State) : State :=
  {| message_count := message_count st; media_count := media_count st;
     media_skipped := media_skipped st; media_filtered := media_filtered st;
     media_failed := media_failed st + 1; f := f st;
     events := events st; world := world st |}.

(** How the body of [try] ends: at its last statement, or at an exception,
    with the value [download_success] has then. *)
Inductive TryResult : Type :=
| Completed (st : State)
| Excepted (st : State) (download_success : bool) (error_msg : string).

(** Lines 191-230, the body of [try].  The name of the file raises for a
    document that is [None]; the print of line 215 may raise; the download
    may raise; after it [media_count] is incremented and
    [download_success] set, then the print of line 227 may raise; the line
    of the stored file is written last. *)
Definition try_download (cfg : Config) (msg : Message) (timestamp : string)
    (sender_name : Py.value) (st : State) : TryResult :=
  match media msg with
  | Some MessageMediaDocumentNone => Excepted st false no_attributes_error
  | _ =>
      let media_filename := media_filename_of msg in
      let media_dir := Py.path_join (output_dir cfg) "media" in
      let media_path := Py.path_join media_dir media_filename in
      match console_print (downloading_text media_filename) with
      | Some error_msg => Excepted st false error_msg
      | None =>
          let '(w, result) := client_download_media (world st) msg media_path in
          let st := emit (EvDownload (msg_id msg) media_path) w st in
          match result with
          | Raised error_msg => Excepted st false error_msg
          | Downloaded =>
              let st := incr_media_count st in
              match console_print tick_text with
              | Some error_msg => Excepted st true error_msg
              | None =>
                  Completed (write (media_line timestamp sender_name media_filename) st)
              end
          end
      end
  end.

(** Lines 233-244, the body of [except], [retry_count] already
    incremented: the state it leaves and, when its print raises, the text
    of the exception that leaves the handler. *)
Definition on_exception (timestamp : string) (sender_name : Py.value)
    (retry_count : nat) (error_msg : string) (st : State) : State * option string :=
  match console_print (retry_text retry_count error_msg) with
  | Some raised => (st, Some raised)
  | None =>
      if (max_retries <=? retry_count)%nat then
        (write (media_line timestamp sender_name ("Download failed - " ++ error_msg))
               (incr_media_failed st), None)
      else (emit (EvSleep 3) (world st) st, None)
  end.

(** Lines 189-244: [while retry_count < max_retries and not download_success].
    The result is the state the loop leaves and, when an exception leaves
    it, the text of that exception. *)
Equations? retry_loop (cfg : Config) (msg : Message) (timestamp : string)
    (sender_name : Py.value) (retry_count : nat) (download_success : bool)
    (st : State) : State * option string
    by wf ((max_retries - retry_count) + (if download_success then 0 else 1)) lt :=
  retry_loop cfg msg timestamp sender_name retry_count download_success st
    with inspect ((retry_count <? max_retries)%nat && negb download_success) => {
    | exist _ false _ => (st, None)
    | exist _ true Hcond
        with inspect (try_download cfg msg timestamp sender_name st) => {
        | exist _ (Completed st') _ =>
            retry_loop cfg msg timestamp sender_name retry_count true st'
        | exist _ (Excepted st' success error_msg) _
            with inspect (on_exception timestamp sender_name (S retry_count)
                            error_msg st') => {
            | exist _ (st'', Some raised) _ => (st'', Some raised)
            | exist _ (st'', None) _ =>
                retry_loop cfg msg timestamp sender_name (S retry_count) success st''
          }
      }
  }.
Proof.
  all: apply andb_prop in Hcond; destruct Hcond as [Hlt Hnot].
  all: destruct download_success; [discriminate Hnot |].
  all: destruct retry_count as [|[|[|n]]]; cbn in Hlt |- *;
    try discriminate Hlt; try destruct success; lia.
Qed.

(** Lines 143-248: the body of the loop over the messages up to the end
    of the media handling.  The result is the state it leaves and, when
    an exception leaves it, the text of that exception. *)
Definition process_message_outcome (cfg : Config) (st : State) (msg : Message)
    : State * option string :=
  let st := incr_message_count st in
  let sender_name := sender_name_of msg in
  let timestamp := timestamp_of msg in
  let st :=
    if negb (message msg =? "")
    then write (text_line timestamp sender_name (message msg)) st
    else st in
  match media msg with
  | Some _ =>
      if download_media cfg then
        match get_media_type msg with
        | Py.Raises error => (st, Some error)
        | Py.Returns media_type =>
            let media_size := get_media_size msg in
            let '(should_download, skip_reason) :=
              apply_filters (media_filter cfg) (media_max_size cfg) media_type media_size in
            if negb should_download then
              (write (media_line timestamp sender_name (Py.format_opt skip_reason))
                     (incr_media_filtered st), None)
            else retry_loop cfg msg timestamp sender_name 0 false st
        end
      else
        (write (media_line timestamp sender_name "not downloaded") (incr_media_skipped st),
         None)
  | None => (st, None)
  end.

(** The state the body of the loop leaves, however it ends. *)
Definition process_message (cfg : Config) (st : State) (msg : Message) : State :=
  fst (process_message_outcome cfg st msg).

(** Lines 251-263: the text of the progress report due after this
    message, if one is due. *)
Definition progress_text (cfg : Config) (st : State) : option string :=
  let count := Py.str_int (Z.of_nat (message_count st)) in
  if (message_count st mod 50 =? 0)%nat then
    let status := "Progress: " ++ count ++ " messages" in
    let status :=
      if download_media cfg then
        let status :=
          status ++ ", " ++ Py.str_int (Z.of_nat (media_count st)) ++ " downloaded" in
        let status :=
          if (0 <? media_filtered st)%nat
          then status ++ ", " ++ Py.str_int (Z.of_nat (media_filtered st)) ++ " filtered"
          else status in
        if (0 <? media_failed st)%nat
        then status ++ ", " ++ Py.str_int (Z.of_nat (media_failed st)) ++ " failed"
        else status
      else status ++ ", " ++ Py.str_int (Z.of_nat (media_skipped st)) ++ " media skipped" in
    Some (status ++ Py.nl)
  else if (message_count st mod 10 =? 0)%nat then
    Some ("  " ++ count ++ " messages..." ++ Py.cr)
  else None.

(** Lines 251-263: the progress report; the text of the exception when
    its print raises. *)
Definition progress_indicator (cfg : Config) (st : State) : option string :=
  match progress_text cfg st with
  | Some text => console_print text
  | None => None
  end.

(** Lines 142-263: the loop over the messages that
    [client.iter_messages(chat)] yields.  It ends with the messages, or at
    the first exception that leaves its body. *)
Fixpoint process_messages_outcome (cfg : Config) (st : State) (messages : list Message)
    : State * option string :=
  match messages with
  | [] => (st, None)
  | msg :: rest =>
      match process_message_outcome cfg st msg with
      | (st', Some raised) => (st', Some raised)
      | (st', None) =>
          match progress_indicator cfg st' with
          | Some raised => (st', Some raised)
          | None => process_messages_outcome cfg st' rest
          end
      end
  end.

(** The state the loop leaves, however it ends. *)
Definition process_messages (cfg : Config) (st : State) (messages : list Message) : State :=
  fst (process_messages_outcome cfg st messages).

(** Lines 132-263: the run, from the counters at zero and the history
    file just opened: the state it leaves and, when an exception ends it,
    the text of that exception. *)
Definition download_chat_outcome (cfg : Config) (w : W) (messages : list Message)
    : State * option string :=
  process_messages_outcome cfg (initial_state w) messages.

(** The state the run leaves, however it ends. *)
Definition download_chat (cfg : Config) (w : W) (messages : list Message) : State :=
  fst (download_chat_outcome cfg w messages).

End ExportLoop.

Arguments message_count {W} _.
Arguments media_count {W} _.
Arguments media_skipped {W} _.
Arguments media_filtered {W} _.
Arguments media_failed {W} _.
Arguments f {W} _.
Arguments events {W} _.
Arguments world {W} _.
Arguments initial_state {W} _.
Arguments write {W} _ _.
Arguments emit {W} _ _ _.
Arguments incr_message_count {W} _.
Arguments incr_media_count {W} _.
Arguments incr_media_skipped {W} _.
Arguments incr_media_filtered {W} _.
Arguments incr_media_failed {W} _.
Arguments Completed {W} _.
Arguments Excepted {W} _ _ _.
Arguments on_exception {W} _ _ _ _ _ _.
Arguments try_download {W} _ _ _ _ _ _ _.
Arguments retry_loop {W} _ _ _ _ _ _ _ _ _.
Arguments process_message_outcome {W} _ _ _ _ _.
Arguments process_message {W} _ _ _ _ _.
Arguments progress_text {W} _ _.
Arguments progress_indicator {W} _ _ _.
Arguments process_messages_outcome {W} _ _ _ _ _.
Arguments process_messages {W} _ _ _ _ _.
Arguments download_chat_outcome {W} _ _ _ _ _.
Arguments download_chat {W} _ _ _ _ _.

(** ** The command line: [main] *)

(** How [main] ends: [sys.exit(code)], or the call of [download_chat] with
    the parsed arguments. *)
Inductive MainResult : Type :=
| Exit (code : Z)
| Run (api_id : Z) (api_hash chat_username : string) (cfg : Config).

(** The keys of the dictionary [valid_options]. *)
Definition valid_options : list string :=
  ["--download-media"; "--media-filter"; "--media-max-size"; "--output-dir"].

(** The list the value of [--media-filter] is looked up in. *)
Definition valid_filters : list string :=
  ["image"; "audio"; "video"; "other"; "all"].

Definition set_download_media (cfg : Config) : Config :=
  {| output_dir := output_dir cfg; download_media := true;
     media_filter := media_filter cfg; media_max_size := media_max_size cfg |}.

Definition set_output_dir (dir : string) (cfg : Config) : Config :=
  {| output_dir := dir; download_media := download_media cfg;
     media_filter := media_filter cfg; media_max_size := media_max_size cfg |}.

Definition set_media_filter (filter : string) (cfg : Config) : Config :=
  {| output_dir := output_dir cfg; download_media := download_media cfg;
     media_filter := filter; media_max_size := media_max_size cfg |}.

Definition set_media_max_size (limit : Z) (cfg : Config) : Config :=
  {| output_dir := output_dir cfg; download_media := download_media cfg;
     media_filter := media_filter cfg; media_max_size := Some limit |}.

(** The values of the options before the command line is read. *)
Definition default_config : Config :=
  {| output_dir := "backup"; download_media := false;
     media_filter := "all"; media_max_size := None |}.

Section Main.

(** [int(s)]: the number, or [None] when it raises [ValueError]. *)
Variable py_int : string -> option Z.

(** Lines 362-410: the loop over [sys.argv[i:]].  [args] is what is left
    of the command line from index [i] on; the result is the options, or
    the code of [sys.exit]. *)
Fixpoint parse_options (args : list string) (cfg : Config) : Config + Z :=
  match args with
  | [] => inl cfg
  | arg :: rest =>
      if negb (Py.startswith arg "--") then inr 1%Z
      else if negb (Py.mem arg valid_options) then inr 1%Z
      else if arg =? "--download-media" then parse_options rest (set_download_media cfg)
      else if arg =? "--output-dir" then
        match rest with
        | [] => inr 1%Z
        | value :: rest' => parse_options rest' (set_output_dir value cfg)
        end
      else if arg =? "--media-filter" then
        match rest with
        | [] => inr 1%Z
        | value :: rest' =>
            let media_filter := Py.lower value in
            if negb (Py.mem media_filter valid_filters) then inr 1%Z
            else parse_options rest' (set_media_filter media_filter cfg)
        end
      else (* arg == '--media-max-size', the last key of valid_options *)
        match rest with
        | [] => inr 1%Z
        | value :: rest' =>
            match py_int value with
            | Some media_max_size =>
                if (media_max_size <=? 0)%Z then inr 1%Z
                else parse_options rest' (set_media_max_size media_max_size cfg)
            | None => inr 1%Z
            end
        end
  end.

(** [main], given [sys.argv]. *)
Definition main (argv : list string) : MainResult :=
  if Py.mem "--help" argv || Py.mem "-h" argv then Exit 0
  else if (List.length argv <? 4)%nat then Exit 1
  else
    match py_int (nth 1 argv "") with
    | None => Exit 1
    | Some api_id =>
        let api_hash := nth 2 argv "" in
        let chat_username := nth 3 argv "" in
        match parse_options (skipn 4 argv) default_config with
        | inr code => Exit code
        | inl cfg => Run api_id api_hash chat_username cfg
        end
    end.

End Main.

(** [int(s)] on the strings of decimal digits with an optional sign, the
    instance of [py_int] the examples run [main] with. *)
Definition decimal_int (s : string) : option Z :=
  option_map Z.of_int (NilEmpty.int_of_string s).

(** ** The classifier as the specification words it *)







(** [r] is the maximum of the list [l]. *)
Definition is_maximum_of (l : list Z) (r : Z) : Prop :=
  In r l /\ Forall (fun x => (x <= r)%Z) l.

(** The lines written for the text of a message: one when the text is not
    empty, none otherwise. *)
Definition text_lines (msg : Message) : list string :=
  if negb (message msg =? "")
  then [text_line (timestamp_of msg) (sender_name_of msg) (message msg)]
  else [].

(** The path a media item is stored at. *)
Definition media_path_of (cfg : Config) (msg : Message) : string :=
  Py.path_join (Py.path_join (output_dir cfg) "media") (media_filename_of msg).

(** The number of messages that carry media. *)
Definition count_media (messages : list Message) : nat :=
  List.length (filter (fun m => match media m with Some _ => true | None => false end) messages).

(** The state after the count of the message and the line for its text. *)
Definition after_text {W : Type} (st : State W) (msg : Message) : State W :=
  {| message_count := message_count st + 1; media_count := media_count st;
     media_skipped := media_skipped st; media_filtered := media_filtered st;
     media_failed := media_failed st; f := (f st ++ text_lines msg)%list;
     events := events st; world := world st |}.

(** The four media counters of the run. *)
Definition counters {W : Type} (st : State W) : nat * nat * nat * nat :=
  (media_count st, media_filtered st, media_failed st, media_skipped st).

(** ** Sample inputs *)

Module Sample.

Definition noon : DateTime :=
  {| year := 2024; month := 3; day := 9; hour := 12; minute := 0; second := 5 |}.

Definition bob : Sender :=
  {| username := Some (Py.PyStr "bob"); first_name := Some (Py.PyStr "Bob") |}.

(** A deleted account: the names are there and are [None]. *)
Definition deleted_account : Sender :=
  {| username := Some Py.PyNone; first_name := Some Py.PyNone |}.

Definition hello : Message :=
  {| msg_id := 1; sender := Some bob; date := Some noon; message := "hello";
     media := None |}.

(** A photo without text, the largest variant of 2,000,000 bytes. *)
Definition photo : Message :=
  {| msg_id := 2; sender := Some bob; date := Some noon; message := "";
     media := Some (MessageMediaPhoto
                      {| sizes := Some [ {| photo_size := Some 1200%Z |};
                                         {| photo_size := None |};
                                         {| photo_size := Some 2000000%Z |} ] |}) |}.

(** A video of 10,000,000 bytes sent as a document. *)
Definition video : Message :=
  {| msg_id := 3; sender := None; date := Some noon; message := "look";
     media := Some (MessageMediaDocument
                      {| mime_type := Some "video/mp4";
                         attributes :=
                           [ {| type_name := "DocumentAttributeVideo"; file_name := None |};
                             {| type_name := "DocumentAttributeFilename";
                                file_name := Some "clip.mp4" |} ];
                         size := Some 10000000%Z |}) |}.

(** A text message from a deleted account. *)
Definition from_deleted_account : Message :=
  {| msg_id := 4; sender := Some deleted_account; date := Some noon; message := "hi";
     media := None |}.

Definition with_downloads : Config :=
  {| output_dir := "backup"; download_media := true; media_filter := "all";
     media_max_size := Some 5000000%Z |}.

(** A client whose every download raises, the error text telling the
    attempts apart; its world is the number of calls made so far. *)
Definition always_failing (w : nat) (_ : Message) (_ : string) : nat * DownloadResult :=
  (S w, Raised ("Timeout " ++ Py.str_int (Z.of_nat w))).

(** A client whose every download returns. *)
Definition always_succeeding (w : nat) (_ : Message) (_ : string) : nat * DownloadResult :=
  (S w, Downloaded).

(** A console that prints every text. *)
Definition console (_ : string) : option string := None.

(** A console that encodes ASCII only: the print of a text with a
    character outside ASCII raises [UnicodeEncodeError]. *)
Definition ascii_console (text : string) : option string :=
  Py.ascii_encode_error text.

(** A client whose first two downloads raise and whose later ones return;
    its world is the number of calls made so far. *)
Definition fails_twice (w : nat) (_ : Message) (_ : string) : nat * DownloadResult :=
  (S w, if (w <? 2)%nat then Raised "Timeout" else Downloaded).


(** An audio file sent as a document of mime type application/ogg. *)
Definition ogg : Message :=
  {| msg_id := 5; sender := None; date := None; message := "";
     media := Some (MessageMediaDocument
                      {| mime_type := Some "application/ogg";
                         attributes := [ {| type_name := "DocumentAttributeAudio";
                                            file_name := None |} ];
                         size := Some 4096%Z |}) |}.

(** A message whose document has expired. *)
Definition expired : Message :=
  {| msg_id := 6; sender := Some bob; date := Some noon; message := "";
     media := Some MessageMediaDocumentNone |}.

End Sample.

(** ** Measures of a run *)

(** Is the event a call of the download? *)
Definition is_download (e : Event) : bool :=
  match e with
  | EvDownload _ _ => true
  | EvSleep _ => false
  end.

(** The number of download calls among the events. *)
Definition count_downloads (l : list Event) : nat :=
  List.length (filter is_download l).

(** The number of waits among the events. *)
Definition count_sleeps (l : list Event) : nat :=
  List.length (filter (fun e => negb (is_download e)) l).

(** Every wait among the events is one of three seconds. *)
Definition sleeps_are_three_seconds (l : list Event) : Prop :=
  Forall (fun e => match e with EvSleep s => s = 3%Z | EvDownload _ _ => True end) l.

(** The events of [k] attempts at one download: the calls, with a wait of
    three seconds between two of them. *)
Fixpoint attempts_trace (attempt : Event) (k : nat) : list Event :=
  match k with
  | 0 => []
  | S k' =>
      match k' with
      | 0 => [attempt]
      | S _ => attempt :: EvSleep 3 :: attempts_trace attempt k'
      end
  end.

(** The number of messages with a text. *)
Definition count_text (messages : list Message) : nat :=
  List.length (filter (fun m => negb (message m =? "")) messages).

(** A client whose first download raises and whose later ones return; its
    world is the number of calls made so far. *)
Definition fails_once (w : nat) (_ : Message) (_ : string) : nat * DownloadResult :=
  (S w, if (w =? 0)%nat then Raised "Timeout" else Downloaded).

(** ** The progress callback of a download *)

(** Lines 207-212: one call of [progress_callback(current, total)], given
    the value of [last_update[0]]: whether a dot is printed, and the new
    value of [last_update[0]]. *)
Definition progress_callback (last_update current : Z) : bool * Z :=
  if (100 * 1024 <=? current - last_update)%Z then (true, current)
  else (false, last_update).

(** The callback over the values of [current] that the client reports in
    the course of one download: the number of dots printed and the last
    value of [last_update[0]]. *)
Fixpoint progress_reports (last_update : Z) (dots : nat) (reports : list Z) : nat * Z :=
  match reports with
  | [] => (dots, last_update)
  | current :: rest =>
      let '(dot, last_update) := progress_callback last_update current in
      progress_reports last_update (if dot then S dots else dots) rest
  end.

(** ** Shapes of strings *)

(** The string has no slash. *)
Fixpoint no_slash (s : string) : bool :=
  match s with
  | EmptyString => true
  | String c rest => negb (c =? "/")%char && no_slash rest
  end.

(** The string is a transcript line of the message: its timestamp and
    sender in the usual form, then a body, then the end of the line. *)
Definition is_line_of (msg : Message) (line : string) : Prop :=
  exists body,
    line = line_prefix (timestamp_of msg) (sender_name_of msg) ++ body ++ Py.nl.

(** The induction principle that follows the cases of [parse_options]. *)
Functional Scheme parse_options_ind := Induction for parse_options Sort Prop.

(** ** What a piece of the loop may do to the state *)

(** From [st] to [st'] the handling of the media of [msg] has only
    appended media lines of [msg] to the history file, and download calls
    and waits of three seconds to the events, at most [k] calls; it has
    left the counts of messages, of skipped and of filtered items as they
    were and has not lowered the other two. *)
Definition extends {W : Type} (msg : Message) (k : nat) (st st' : State W) : Prop :=
  message_count st' = message_count st /\
  media_skipped st' = media_skipped st /\
  media_filtered st' = media_filtered st /\
  media_count st <= media_count st' /\
  media_failed st <= media_failed st' /\
  (exists lines, f st' = (f st ++ lines)%list /\ Forall (is_line_of msg) lines) /\
  (exists evs,
     events st' = (events st ++ evs)%list /\
     sleeps_are_three_seconds evs /\ count_downloads evs <= k).

(** * Properties *)

(** ** Strings *)


Lemma lower_ascii_idempotent (c : ascii) :
  Py.lower_ascii (Py.lower_ascii c) = Py.lower_ascii c.
Proof. destruct c as [[] [] [] [] [] [] [] []]; reflexivity. Qed.

Lemma lower_idempotent (s : string) : Py.lower (Py.lower s) = Py.lower s.
Proof.
  induction s as [|c s IH]; cbn [Py.lower]; [reflexivity|].
  now rewrite lower_ascii_idempotent, IH.
Qed.



(** ** Media classifier *)





(** [max] of a non-empty list is one of its elements and bounds them
    all. *)
Lemma max_from_is_maximum (l : list Z) (x : Z) :
  is_maximum_of (x :: l) (Py.max_from x l).
Proof.
  unfold is_maximum_of, Py.max_from.
  revert x; induction l as [|y l IH]; intros x; cbn [fold_left].
  - split; [now left | repeat constructor; lia].
  - destruct (IH (if (x <? y)%Z then y else x)) as [Hin Hall].
    inversion Hall as [|? ? Hhd Htl]; subst.
    split.
    + destruct Hin as [Heq|Hin]; [|now right; right].
      rewrite <- Heq. destruct (x <? y)%Z; [right; now left | now left].
    + destruct (Z.ltb_spec x y); repeat constructor; try assumption; lia.
Qed.

(** The list comprehension of [get_media_size] keeps the sizes that the
    entries declare, and nothing else. *)
Lemma declared_sizes_spec (l : list PhotoSize) (n : Z) :
  In n (declared_sizes l) <-> exists s, In s l /\ photo_size s = Some n.
Proof.
  induction l as [|s rest IH]; cbn [declared_sizes].
  - split; [intros [] | intros (s & [] & _)].
  - destruct (photo_size s) as [k|] eqn:Hs.
    + split.
      * intros [<-|Hin]; [exists s; split; [now left | exact Hs]|].
        apply IH in Hin. destruct Hin as (s' & Hin & Hs').
        exists s'. split; [now right | exact Hs'].
      * intros (s' & [<-|Hin] & Hs'); [left; congruence|].
        right. apply IH. now exists s'.
    + split.
      * intros Hin. apply IH in Hin. destruct Hin as (s' & Hin & Hs').
        exists s'. split; [now right | exact Hs'].
      * intros (s' & [<-|Hin] & Hs'); [congruence|]. apply IH. now exists s'.
Qed.

(** C8.  The size of the media of a message: the declared size of a
    document, 0 when it declares none or the document is missing; for a
    photo, when no resolution variant declares a size, 0, and otherwise a
    size that one of the variants declares and that no declared size of a
    variant exceeds; 0 when the photo has no variants, when there is no
    media or when it is of another kind. *)
Theorem get_media_size_reports (msg : Message) :
  match media msg with
  | None => get_media_size msg = 0%Z
  | Some (MessageMediaDocument doc) =>
      get_media_size msg = match size doc with Some n => n | None => 0%Z end
  | Some MessageMediaDocumentNone => get_media_size msg = 0%Z
  | Some (MessageMediaPhoto photo) =>
      match sizes photo with
      | Some variants =>
          ((forall s, In s variants -> photo_size s = None) /\ get_media_size msg = 0%Z)
          \/
          ((exists s, In s variants /\ photo_size s = Some (get_media_size msg)) /\
           (forall s n, In s variants -> photo_size s = Some n ->
                        (n <= get_media_size msg)%Z))
      | None => get_media_size msg = 0%Z
      end
  | Some MessageMediaOther => get_media_size msg = 0%Z
  end.
Proof.
  unfold get_media_size.
  destruct (media msg) as [[photo|doc| |]|]; try reflexivity.
  destruct (sizes photo) as [variants|]; [|reflexivity].
  destruct (declared_sizes variants) as [|x rest] eqn:Hdecl.
  - left. split; [|reflexivity].
    intros s Hin. destruct (photo_size s) as [n|] eqn:Hs; [|reflexivity].
    assert (Hn : In n (declared_sizes variants))
      by (apply declared_sizes_spec; now exists s).
    rewrite Hdecl in Hn. destruct Hn.
  - right. destruct (max_from_is_maximum rest x) as (Hin & Hall).
    rewrite <- Hdecl in Hin, Hall. split.
    + apply declared_sizes_spec. exact Hin.
    + intros s n Hs Hn. rewrite Forall_forall in Hall. apply Hall.
      apply declared_sizes_spec. now exists s.
Qed.

(** The largest of the three variants of the sample photo. *)
Example get_media_size_of_photo : get_media_size Sample.photo = 2000000%Z.
Proof. reflexivity. Qed.

(** ** Filter *)

(** C2.  When the configured type filter is not [all] and differs from the
    classification of the item, the filter refuses the download with the
    reason [filtered (<classification>)], whatever the size of the item and
    whatever maximum size is configured. *)
Theorem type_filter_rejects_first (media_filter classification : string)
    (media_max_size : option Z) (media_size : Z) :
  media_filter <> "all" ->
  classification <> media_filter ->
  apply_filters media_filter media_max_size (Some classification) media_size =
  (false, Some ("filtered (" ++ classification ++ ")")).
Proof.
  intros Hall Hcls. unfold apply_filters.
  destruct (String.eqb_spec media_filter "all") as [|_]; [contradiction|].
  destruct (String.eqb_spec classification media_filter) as [|_]; [contradiction|].
  reflexivity.
Qed.

Lemma type_filter_rejects_first_witness :
  "audio" <> "all" /\ "video" <> "audio" /\
  apply_filters "audio" (Some 5000000%Z) (Some "video") 10000000 =
  (false, Some "filtered (video)").
Proof.
  split; [discriminate|]. split; [discriminate|].
  apply (type_filter_rejects_first "audio" "video" (Some 5000000%Z) 10000000);
    discriminate.
Defined.

(** C7.  For an item that passes the type filter (the filter is [all] or
    equals the classification), with a maximum size that is not 0 when
    configured ([main] accepts only positive ones): the download is refused
    with the reason [too large (<size> bytes)] when a maximum is configured
    and the size is strictly greater, and accepted otherwise, in particular
    when the size equals the maximum and when no maximum is configured. *)
Theorem size_filter_decides (media_filter : string) (media_max_size : option Z)
    (media_type : option string) (media_size : Z) :
  media_filter = "all" \/ media_type = Some media_filter ->
  media_max_size <> Some 0%Z ->
  apply_filters media_filter media_max_size media_type media_size =
  match media_max_size with
  | Some limit =>
      if (limit <? media_size)%Z
      then (false, Some ("too large (" ++ Py.format_comma media_size ++ " bytes)"))
      else (true, None)
  | None => (true, None)
  end.
Proof.
  intros Hpass Hnonzero. unfold apply_filters.
  assert (Htype : negb (media_filter =? "all")
                  && negb match media_type with
                          | Some t => t =? media_filter
                          | None => false
                          end = false).
  { destruct Hpass as [->| ->]; [reflexivity|].
    rewrite String.eqb_refl. apply andb_false_r. }
  rewrite Htype. cbn [andb].
  destruct media_max_size as [limit|]; [|reflexivity].
  destruct (Z.eqb_spec limit 0) as [->|_]; [contradiction|].
  cbn [negb andb].
  destruct (limit <? media_size)%Z; reflexivity.
Qed.

Lemma size_filter_decides_witness :
  ("all" = "all" \/ Some "video" = Some "all") /\
  Some 5000000%Z <> Some 0%Z /\
  apply_filters "all" (Some 5000000%Z) (Some "video") 10000000 =
  (false, Some "too large (10,000,000 bytes)") /\
  apply_filters "all" (Some 5000000%Z) (Some "video") 5000000 = (true, None).
Proof.
  split; [now left|]. split; [discriminate|]. split.
  - apply (size_filter_decides "all" (Some 5000000%Z) (Some "video") 10000000);
      [now left | discriminate].
  - apply (size_filter_decides "all" (Some 5000000%Z) (Some "video") 5000000);
      [now left | discriminate].
Defined.

(** With a maximum of 0 the size test is skipped: Python takes 0 for
    false, as it takes [None]. *)
Lemma zero_max_size_is_no_limit (media_type : option string) (media_size : Z) :
  apply_filters "all" (Some 0%Z) media_type media_size = (true, None).
Proof. reflexivity. Qed.

(** ** Lines and events *)

Lemma append_assoc3 (a b c : string) : (a ++ b) ++ c = a ++ b ++ c.
Proof. induction a as [|x a IH]; cbn [append]; [reflexivity | now rewrite IH]. Qed.

Lemma media_line_is_line_of (msg : Message) (payload : string) :
  is_line_of msg (media_line (timestamp_of msg) (sender_name_of msg) payload).
Proof.
  exists ("[MEDIA: " ++ payload ++ "]"). unfold media_line.
  now rewrite !append_assoc3.
Qed.

Lemma count_downloads_app (a b : list Event) :
  count_downloads (a ++ b) = count_downloads a + count_downloads b.
Proof. unfold count_downloads. now rewrite filter_app, length_app. Qed.

Lemma count_sleeps_app (a b : list Event) :
  count_sleeps (a ++ b) = count_sleeps a + count_sleeps b.
Proof. unfold count_sleeps. now rewrite filter_app, length_app. Qed.

(** ** Steps that extend the state *)

Section Extends.

Context {W : Type}.
Variable msg : Message.

Lemma extends_refl (st : State W) : extends msg 0 st st.
Proof.
  unfold extends. repeat split; try lia.
  - exists []. split; [now rewrite app_nil_r | constructor].
  - exists []. split; [now rewrite app_nil_r|]. split; [constructor | cbn; lia].
Qed.

Lemma extends_weaken (k k' : nat) (st st' : State W) :
  k <= k' -> extends msg k st st' -> extends msg k' st st'.
Proof.
  intros Hle (H1 & H2 & H3 & H4 & H5 & H6 & evs & He & Hs & Hd).
  unfold extends. repeat split; try assumption.
  exists evs. repeat split; try assumption. lia.
Qed.

Lemma extends_trans (k1 k2 : nat) (a b c : State W) :
  extends msg k1 a b -> extends msg k2 b c -> extends msg (k1 + k2) a c.
Proof.
  intros (A1 & A2 & A3 & A4 & A5 & (l1 & Af & Al) & e1 & Ae & As & Ad)
         (B1 & B2 & B3 & B4 & B5 & (l2 & Bf & Bl) & e2 & Be & Bs & Bd).
  unfold extends. repeat split; try congruence; try lia.
  - exists (l1 ++ l2)%list. split; [now rewrite Bf, Af, app_assoc|].
    apply Forall_app. now split.
  - exists (e1 ++ e2)%list. split; [now rewrite Be, Ae, app_assoc|]. split.
    + apply Forall_app. now split.
    + rewrite count_downloads_app. lia.
Qed.

Lemma extends_write (payload : string) (st : State W) :
  extends msg 0 st (write (media_line (timestamp_of msg) (sender_name_of msg) payload) st).
Proof.
  unfold extends, write; cbn [message_count media_count media_skipped media_filtered
    media_failed f events world]. repeat split; try lia.
  - eexists. split; [reflexivity|]. repeat constructor. apply media_line_is_line_of.
  - exists []. split; [now rewrite app_nil_r|]. split; [constructor | cbn; lia].
Qed.

Lemma extends_sleep (w : W) (st : State W) : extends msg 0 st (emit (EvSleep 3) w st).
Proof.
  unfold extends, emit; cbn [message_count media_count media_skipped media_filtered
    media_failed f events world]. repeat split; try lia.
  - exists []. split; [now rewrite app_nil_r | constructor].
  - eexists. split; [reflexivity|]. split; [repeat constructor | cbn; lia].
Qed.

Lemma extends_download (message_id : Z) (media_path : string) (w : W) (st : State W) :
  extends msg 1 st (emit (EvDownload message_id media_path) w st).
Proof.
  unfold extends, emit; cbn [message_count media_count media_skipped media_filtered
    media_failed f events world]. repeat split; try lia.
  - exists []. split; [now rewrite app_nil_r | constructor].
  - eexists. split; [reflexivity|]. split; [repeat constructor | cbn; lia].
Qed.

Lemma extends_incr_media_count (st : State W) : extends msg 0 st (incr_media_count st).
Proof.
  unfold extends, incr_media_count; cbn [message_count media_count media_skipped
    media_filtered media_failed f events world]. repeat split; try lia.
  - exists []. split; [now rewrite app_nil_r | constructor].
  - exists []. split; [now rewrite app_nil_r|]. split; [constructor | cbn; lia].
Qed.

Lemma extends_incr_media_failed (st : State W) : extends msg 0 st (incr_media_failed st).
Proof.
  unfold extends, incr_media_failed; cbn [message_count media_count media_skipped
    media_filtered media_failed f events world]. repeat split; try lia.
  - exists []. split; [now rewrite app_nil_r | constructor].
  - exists []. split; [now rewrite app_nil_r|]. split; [constructor | cbn; lia].
Qed.

End Extends.

(** ** The retry loop *)

Section RetryLoop.

Context {W : Type}.
Variable client_download_media : W -> Message -> string -> W * DownloadResult.
Variable console_print : string -> option string.

Local Abbreviation try_once := (try_download client_download_media console_print).
Local Abbreviation handler := (on_exception (W:=W) console_print).
Local Abbreviation loop := (retry_loop client_download_media console_print).

(** One turn of the [while]. *)
Lemma retry_loop_step cfg msg timestamp sender_name retry_count download_success
    (st : State W) :
  loop cfg msg timestamp sender_name retry_count download_success st =
  if (retry_count <? max_retries)%nat && negb download_success then
    match try_once cfg msg timestamp sender_name st with
    | Completed st' => loop cfg msg timestamp sender_name retry_count true st'
    | Excepted st' success error_msg =>
        match handler timestamp sender_name (S retry_count) error_msg st' with
        | (st'', Some raised) => (st'', Some raised)
        | (st'', None) => loop cfg msg timestamp sender_name (S retry_count) success st''
        end
    end
  else (st, None).
Proof.
  funelim (retry_loop client_download_media console_print cfg msg timestamp sender_name
             retry_count download_success st).
  all: match goal with Hc : _ && _ = _ |- _ => rewrite Hc end; try reflexivity.
  all: match goal with Ht : try_download _ _ _ _ _ _ _ = _ |- _ => rewrite Ht end;
    try reflexivity.
  all: match goal with Hh : on_exception _ _ _ _ _ _ = _ |- _ => rewrite Hh end.
  all: reflexivity.
Qed.

(** The loop is over once the download has succeeded. *)
Lemma retry_loop_stops cfg msg timestamp sender_name retry_count (st : State W) :
  loop cfg msg timestamp sender_name retry_count true st = (st, None).
Proof. rewrite retry_loop_step. now rewrite andb_false_r. Qed.

(** The body of [try] when the file has a name and the print before the
    download returns. *)
Lemma try_download_cases cfg msg timestamp sender_name (st : State W) :
  media msg <> Some MessageMediaDocumentNone ->
  console_print (downloading_text (media_filename_of msg)) = None ->
  try_once cfg msg timestamp sender_name st =
  let media_path := media_path_of cfg msg in
  let '(w, result) := client_download_media (world st) msg media_path in
  let st1 := emit (EvDownload (msg_id msg) media_path) w st in
  match result with
  | Raised error_msg => Excepted st1 false error_msg
  | Downloaded =>
      match console_print tick_text with
      | Some error_msg => Excepted (incr_media_count st1) true error_msg
      | None =>
          Completed (write (media_line timestamp sender_name (media_filename_of msg))
                           (incr_media_count st1))
      end
  end.
Proof.
  intros Hdoc Hprint. unfold try_download, media_path_of. cbv zeta.
  destruct (media msg) as [[photo|doc| |]|]; try (now rewrite Hprint).
  now contradiction Hdoc.
Qed.

(** The handler when its print returns. *)
Lemma on_exception_cases timestamp sender_name retry_count error_msg (st : State W) :
  console_print (retry_text retry_count error_msg) = None ->
  handler timestamp sender_name retry_count error_msg st =
  (if (max_retries <=? retry_count)%nat
   then write (media_line timestamp sender_name ("Download failed - " ++ error_msg))
              (incr_media_failed st)
   else emit (EvSleep 3) (world st) st, None).
Proof.
  intros Hprint. unfold on_exception. rewrite Hprint.
  now destruct (max_retries <=? retry_count)%nat.
Qed.

(** Whatever the client and the console do, the body of [try] extends the
    state, by at most one download call. *)
Lemma try_download_extends cfg msg (st : State W) :
  match try_once cfg msg (timestamp_of msg) (sender_name_of msg) st with
  | Completed st' => extends msg 1 st st'
  | Excepted st' _ _ => extends msg 1 st st'
  end.
Proof.
  unfold try_download.
  assert (Hgen :
    match
      match console_print (downloading_text (media_filename_of msg)) with
      | Some error_msg => Excepted st false error_msg
      | None =>
          let '(w, result) :=
            client_download_media (world st) msg
              (Py.path_join (Py.path_join (output_dir cfg) "media") (media_filename_of msg)) in
          let st0 :=
            emit (EvDownload (msg_id msg)
                    (Py.path_join (Py.path_join (output_dir cfg) "media")
                       (media_filename_of msg))) w st in
          match result with
          | Downloaded =>
              let st1 := incr_media_count st0 in
              match console_print tick_text with
              | Some error_msg => Excepted st1 true error_msg
              | None =>
                  Completed
                    (write (media_line (timestamp_of msg) (sender_name_of msg)
                              (media_filename_of msg)) st1)
              end
          | Raised error_msg => Excepted st0 false error_msg
          end
      end
    with
    | Completed st' => extends msg 1 st st'
    | Excepted st' _ _ => extends msg 1 st st'
    end).
  { destruct (console_print (downloading_text (media_filename_of msg)));
      [apply (extends_weaken msg 0 1); [lia | apply extends_refl]|].
    destruct (client_download_media _ _ _) as [w [|e]]; cbv zeta.
    - destruct (console_print tick_text).
      + change 1 with (1 + 0). eapply extends_trans; [apply extends_download|].
        apply extends_incr_media_count.
      + change 1 with (1 + (0 + 0)).
        eapply extends_trans; [apply extends_download|].
        eapply extends_trans; [apply extends_incr_media_count|].
        apply extends_write.
    - apply extends_download. }
  destruct (media msg) as [[photo|doc| |]|]; try exact Hgen.
  apply (extends_weaken msg 0 1); [lia | apply extends_refl].
Qed.

(** The handler extends the state without a download call. *)
Lemma on_exception_extends msg retry_count error_msg (st : State W) :
  extends msg 0 st
    (fst (handler (timestamp_of msg) (sender_name_of msg) retry_count error_msg st)).
Proof.
  unfold on_exception.
  destruct (console_print (retry_text retry_count error_msg)); cbn [fst];
    [apply extends_refl|].
  destruct (max_retries <=? retry_count)%nat; cbn [fst].
  - change 0 with (0 + 0). eapply extends_trans; [apply extends_incr_media_failed|].
    apply extends_write.
  - apply extends_sleep.
Qed.

(** Whatever the client and the console do, the retry loop extends the
    state, by at most as many download calls as [retry_count] leaves. *)
Lemma retry_loop_extends cfg msg : forall (n retry_count : nat) (ok : bool) (st : State W),
  (max_retries - retry_count) + (if ok then 0 else 1) <= n ->
  extends msg (if ok then 0 else max_retries - retry_count) st
    (fst (loop cfg msg (timestamp_of msg) (sender_name_of msg) retry_count ok st)).
Proof.
  induction n as [|n IH]; intros rc ok st Hn; rewrite retry_loop_step.
  - destruct ok; [rewrite andb_false_r; apply extends_refl|].
    lia.
  - destruct ok; [rewrite andb_false_r; apply extends_refl|].
    rewrite andb_true_r.
    destruct (Nat.ltb_spec rc max_retries) as [Hlt|Hge];
      [|cbn [fst]; apply (extends_weaken msg 0); [lia | apply extends_refl]].
    pose proof (try_download_extends cfg msg st) as Htry.
    destruct (try_once cfg msg (timestamp_of msg) (sender_name_of msg) st)
      as [st'|st' success e].
    + rewrite retry_loop_stops. cbn [fst].
      apply (extends_weaken msg 1); [lia | exact Htry].
    + pose proof (on_exception_extends msg (S rc) e st') as Hh.
      destruct (handler (timestamp_of msg) (sender_name_of msg) (S rc) e st')
        as [st'' [raised|]]; cbn [fst] in Hh |- *.
      * apply (extends_weaken msg (1 + 0)); [lia|].
        exact (extends_trans msg 1 0 _ _ _ Htry Hh).
      * specialize (IH (S rc) success st'' ltac:(destruct success; lia)).
        apply (extends_weaken msg (1 + 0 + (if success then 0 else max_retries - S rc)));
          [destruct success; lia|].
        exact (extends_trans msg _ _ _ _ _ (extends_trans msg 1 0 _ _ _ Htry Hh) IH).
Qed.

End RetryLoop.

(** ** The loop over the messages *)

Section ExportProperties.

Context {W : Type}.
Variable client_download_media : W -> Message -> string -> W * DownloadResult.
Variable console_print : string -> option string.

Local Abbreviation loop := (retry_loop client_download_media console_print).
Local Abbreviation outcome := (process_message_outcome client_download_media console_print).
Local Abbreviation step := (process_message client_download_media console_print).
Local Abbreviation run := (process_messages client_download_media console_print).

(** The handling of one message, case by case. *)
Lemma process_message_cases cfg (st : State W) msg :
  outcome cfg st msg =
  match media msg with
  | Some _ =>
      if download_media cfg then
        match get_media_type msg with
        | Py.Raises error => (after_text st msg, Some error)
        | Py.Returns media_type =>
            let '(should_download, skip_reason) :=
              apply_filters (media_filter cfg) (media_max_size cfg)
                media_type (get_media_size msg) in
            if should_download then
              loop cfg msg (timestamp_of msg) (sender_name_of msg) 0 false
                (after_text st msg)
            else
              (write (media_line (timestamp_of msg) (sender_name_of msg)
                        (Py.format_opt skip_reason))
                     (incr_media_filtered (after_text st msg)), None)
        end
      else
        (write (media_line (timestamp_of msg) (sender_name_of msg) "not downloaded")
               (incr_media_skipped (after_text st msg)), None)
  | None => (after_text st msg, None)
  end.
Proof.
  unfold process_message_outcome, after_text, text_lines.
  destruct (negb (message msg =? "")); cbn [negb];
    unfold write, incr_message_count; cbn [message_count media_count media_skipped
      media_filtered media_failed f events world];
    rewrite ?app_nil_r;
    destruct (media msg); try reflexivity;
    destruct (download_media cfg); try reflexivity;
    destruct (get_media_type msg); try reflexivity;
    destruct (apply_filters _ _ _ _) as [[] ?]; reflexivity.
Qed.

(** The filter gives a reason exactly when it refuses the download. *)
Lemma apply_filters_reason (filter : string) (limit : option Z)
    (media_type : option string) (media_size : Z) :
  (apply_filters filter limit media_type media_size = (true, None)) \/
  (exists reason, apply_filters filter limit media_type media_size = (false, Some reason)).
Proof.
  unfold apply_filters.
  destruct (negb (filter =? "all") && _); [right; eexists; reflexivity|].
  cbn [andb]. destruct limit as [n|]; [|now left].
  destruct (negb (n =? 0)%Z && (n <? media_size)%Z); [right; eexists; reflexivity | now left].
Qed.

(** Whatever the client and the console do, the state one message leaves
    is one of four: the state after its text; that state with the item
    counted as skipped and its line; that state with the item counted as
    filtered and its line; or that state extended by the retry loop. *)
Lemma process_message_general cfg (st : State W) msg :
  step cfg st msg = after_text st msg \/
  (download_media cfg = false /\
   step cfg st msg =
   write (media_line (timestamp_of msg) (sender_name_of msg) "not downloaded")
         (incr_media_skipped (after_text st msg))) \/
  (exists media_type reason,
     get_media_type msg = Py.Returns media_type /\
     apply_filters (media_filter cfg) (media_max_size cfg) media_type (get_media_size msg)
     = (false, Some reason) /\
     step cfg st msg =
     write (media_line (timestamp_of msg) (sender_name_of msg) reason)
           (incr_media_filtered (after_text st msg))) \/
  (download_media cfg = true /\ extends msg max_retries (after_text st msg) (step cfg st msg)).
Proof.
  unfold process_message. rewrite process_message_cases.
  destruct (media msg) as [md|]; [|now left].
  destruct (download_media cfg); [|right; left; now split].
  destruct (get_media_type msg) as [media_type|error] eqn:Htype; [|now left].
  destruct (apply_filters_reason (media_filter cfg) (media_max_size cfg) media_type
              (get_media_size msg)) as [Hacc|(reason & Hrej)].
  - rewrite Hacc. right; right; right. split; [reflexivity|].
    exact (retry_loop_extends client_download_media console_print cfg msg
             _ 0 false (after_text st msg) (Nat.le_refl _)).
  - rewrite Hrej. right; right; left. exists media_type, reason. now repeat split.
Qed.

(** The transcript, the events and the counters after one more message,
    whatever the client and the console do. *)
Lemma process_message_grows cfg (st : State W) msg :
  message_count (step cfg st msg) = message_count st + 1 /\
  (exists lines,
     f (step cfg st msg) = (f st ++ lines)%list /\ Forall (is_line_of msg) lines) /\
  (exists evs,
     events (step cfg st msg) = (events st ++ evs)%list /\
     sleeps_are_three_seconds evs /\ count_downloads evs <= max_retries) /\
  media_count st <= media_count (step cfg st msg) /\
  media_filtered st <= media_filtered (step cfg st msg) /\
  media_failed st <= media_failed (step cfg st msg) /\
  media_skipped st <= media_skipped (step cfg st msg).
Proof.
  assert (Htext : Forall (is_line_of msg) (text_lines msg)).
  { unfold text_lines. destruct (negb (message msg =? "")); repeat constructor.
    exists (message msg). reflexivity. }
  destruct (process_message_general cfg st msg)
    as [->|[(_ & ->)|[(t & reason & _ & _ & ->)|(_ & Hext)]]].
  - cbn [after_text message_count f events media_count media_filtered media_failed
      media_skipped]. repeat split; try lia.
    + exists (text_lines msg). now split.
    + exists []. rewrite app_nil_r. repeat split; [constructor | cbn; lia].
  - cbn [write incr_media_skipped after_text message_count f events media_count
      media_filtered media_failed media_skipped]. repeat split; try lia.
    + eexists. rewrite <- app_assoc. split; [reflexivity|].
      apply Forall_app. split; [exact Htext|]. repeat constructor.
      apply media_line_is_line_of.
    + exists []. rewrite app_nil_r. repeat split; [constructor | cbn; lia].
  - cbn [write incr_media_filtered after_text message_count f events media_count
      media_filtered media_failed media_skipped]. repeat split; try lia.
    + eexists. rewrite <- app_assoc. split; [reflexivity|].
      apply Forall_app. split; [exact Htext|]. repeat constructor.
      apply media_line_is_line_of.
    + exists []. rewrite app_nil_r. repeat split; [constructor | cbn; lia].
  - destruct Hext as (H1 & H2 & H3 & H4 & H5 & (lines & Hf & Hl) & evs & He & Hs & Hd).
    cbn [after_text message_count f events media_count media_filtered media_failed
      media_skipped] in *.
    repeat split; try lia.
    + exists (text_lines msg ++ lines)%list. rewrite Hf, <- app_assoc.
      split; [reflexivity|]. apply Forall_app. now split.
    + exists evs. now repeat split.
Qed.

(** A property that the state after one message has of the state before
    it, and that composes, holds of the state after a run. *)
Lemma run_invariant cfg (R : State W -> State W -> Prop) :
  (forall st, R st st) ->
  (forall a b c, R a b -> R b c -> R a c) ->
  (forall st msg, R st (step cfg st msg)) ->
  forall (messages : list Message) (st : State W), R st (run cfg st messages).
Proof.
  intros Hrefl Htrans Hstep. unfold process_messages.
  induction messages as [|msg rest IH]; intros st; cbn [process_messages_outcome fst];
    [apply Hrefl|].
  specialize (Hstep st msg). unfold process_message in Hstep.
  destruct (outcome cfg st msg) as [st' [raised|]]; cbn [fst] in Hstep |- *;
    [exact Hstep|].
  destruct (progress_indicator console_print cfg st'); cbn [fst]; [exact Hstep|].
  exact (Htrans _ _ _ Hstep (IH st')).
Qed.

(** A run over two lists of messages is the run over the first, followed,
    unless an exception ended it, by the run over the second. *)
Lemma process_messages_outcome_app cfg (earlier later : list Message) : forall st : State W,
  process_messages_outcome client_download_media console_print cfg st (earlier ++ later) =
  match process_messages_outcome client_download_media console_print cfg st earlier with
  | (st', Some raised) => (st', Some raised)
  | (st', None) =>
      process_messages_outcome client_download_media console_print cfg st' later
  end.
Proof.
  induction earlier as [|msg rest IH]; intros st; cbn [app process_messages_outcome];
    [reflexivity|].
  destruct (outcome cfg st msg) as [st' [raised|]]; [reflexivity|].
  destruct (progress_indicator console_print cfg st'); [reflexivity|].
  apply IH.
Qed.

(** C6.  A message with media, processed with downloads disabled, appends
    to the transcript the line of its text, if it has one, and then exactly
    one line, whose payload is [[MEDIA: not downloaded]]; [media_skipped]
    goes up by one; [media_count], [media_filtered] and [media_failed] do
    not change, and no download is attempted. *)
Theorem media_not_downloaded_when_disabled cfg (st : State W) msg md :
  media msg = Some md ->
  download_media cfg = false ->
  let st' := step cfg st msg in
  f st' = (f st ++ text_lines msg
           ++ [(line_prefix (timestamp_of msg) (sender_name_of msg)
                ++ "[MEDIA: not downloaded]" ++ Py.nl)%string])%list /\
  media_skipped st' = media_skipped st + 1 /\
  media_count st' = media_count st /\
  media_filtered st' = media_filtered st /\
  media_failed st' = media_failed st /\
  events st' = events st.
Proof.
  intros Hmedia Hoff. cbv zeta. unfold process_message.
  rewrite process_message_cases, Hmedia, Hoff.
  cbn [fst write incr_media_skipped after_text f media_skipped media_count media_filtered
    media_failed events].
  rewrite <- app_assoc. repeat split; reflexivity.
Qed.

End ExportProperties.

Lemma media_not_downloaded_when_disabled_witness :
  media Sample.photo = Some (MessageMediaPhoto
    {| sizes := Some [ {| photo_size := Some 1200%Z |}; {| photo_size := None |};
                       {| photo_size := Some 2000000%Z |} ] |}) /\
  download_media default_config = false /\
  let st' := process_message Sample.always_succeeding Sample.console default_config
               (initial_state 0) Sample.photo in
  f st' = ["[2024-03-09 12:00:05] <bob> [MEDIA: not downloaded]" ++ Py.nl] /\
  media_skipped st' = 1 /\ media_count st' = 0 /\ media_filtered st' = 0 /\
  media_failed st' = 0 /\ events st' = [].
Proof.
  split; [reflexivity|]. split; [reflexivity|].
  apply (media_not_downloaded_when_disabled Sample.always_succeeding Sample.console
           default_config (initial_state 0) Sample.photo _ eq_refl eq_refl).
Defined.

(** ** The loop when the console prints *)

Section QuietConsole.

Context {W : Type}.
Variable client_download_media : W -> Message -> string -> W * DownloadResult.
Variable console_print : string -> option string.

Local Abbreviation loop := (retry_loop client_download_media console_print).
Local Abbreviation outcome := (process_message_outcome client_download_media console_print).
Local Abbreviation step := (process_message client_download_media console_print).

(** A message that the classifier accepts has a document to read. *)
Lemma classified_has_document (msg : Message) (media_type : option string) :
  get_media_type msg = Py.Returns media_type ->
  media msg <> Some MessageMediaDocumentNone.
Proof. unfold get_media_type. intros H Hm. rewrite Hm in H. discriminate. Qed.

(** The retry loop from its start when no print raises, turn by turn: a
    download that returns ends it, the third exception ends it, the first
    two are followed by a wait of three seconds. *)
Lemma retry_loop_quiet cfg msg timestamp sender_name (st : State W) :
  (forall text, console_print text = None) ->
  media msg <> Some MessageMediaDocumentNone ->
  loop cfg msg timestamp sender_name 0 false st =
  (let attempt := EvDownload (msg_id msg) (media_path_of cfg msg) in
   let stored := fun st0 : State W =>
     write (media_line timestamp sender_name (media_filename_of msg))
           (incr_media_count st0) in
   match client_download_media (world st) msg (media_path_of cfg msg) with
   | (w1, Downloaded) => stored (emit attempt w1 st)
   | (w1, Raised _) =>
       let st1 := emit (EvSleep 3) w1 (emit attempt w1 st) in
       match client_download_media w1 msg (media_path_of cfg msg) with
       | (w2, Downloaded) => stored (emit attempt w2 st1)
       | (w2, Raised _) =>
           let st2 := emit (EvSleep 3) w2 (emit attempt w2 st1) in
           match client_download_media w2 msg (media_path_of cfg msg) with
           | (w3, Downloaded) => stored (emit attempt w3 st2)
           | (w3, Raised error_msg) =>
               write (media_line timestamp sender_name ("Download failed - " ++ error_msg))
                     (incr_media_failed (emit attempt w3 st2))
           end
       end
   end, None).
Proof.
  intros Hok Hdoc. cbv zeta.
  rewrite retry_loop_step; cbn [max_retries Nat.ltb Nat.leb andb negb].
  rewrite (try_download_cases _ _ _ _ _ _ _ Hdoc (Hok _)); cbv zeta.
  destruct (client_download_media (world st) msg (media_path_of cfg msg)) as [w1 [|e1]].
  { rewrite (Hok tick_text), retry_loop_stops. reflexivity. }
  rewrite (on_exception_cases _ _ _ _ _ _ (Hok _)).
  cbn [max_retries Nat.leb].
  rewrite retry_loop_step; cbn [max_retries Nat.ltb Nat.leb andb negb].
  rewrite (try_download_cases _ _ _ _ _ _ _ Hdoc (Hok _)); cbv zeta. cbn [emit world].
  destruct (client_download_media w1 msg (media_path_of cfg msg)) as [w2 [|e2]].
  { rewrite (Hok tick_text), retry_loop_stops. reflexivity. }
  rewrite (on_exception_cases _ _ _ _ _ _ (Hok _)).
  cbn [max_retries Nat.leb].
  rewrite retry_loop_step; cbn [max_retries Nat.ltb Nat.leb andb negb].
  rewrite (try_download_cases _ _ _ _ _ _ _ Hdoc (Hok _)); cbv zeta. cbn [emit world].
  destruct (client_download_media w2 msg (media_path_of cfg msg)) as [w3 [|e3]].
  { rewrite (Hok tick_text), retry_loop_stops. reflexivity. }
  rewrite (on_exception_cases _ _ _ _ _ _ (Hok _)).
  cbn [max_retries Nat.leb].
  rewrite retry_loop_step; cbn [max_retries Nat.ltb Nat.leb andb negb].
  reflexivity.
Qed.

(** The retry loop in full when no print raises: between one and three
    attempts, a wait after each attempt but the last, and either one more
    download, or three attempts and one more failure. *)
Lemma retry_loop_trace cfg msg timestamp sender_name (st : State W) :
  (forall text, console_print text = None) ->
  media msg <> Some MessageMediaDocumentNone ->
  let st' := fst (loop cfg msg timestamp sender_name 0 false st) in
  let attempt := EvDownload (msg_id msg) (media_path_of cfg msg) in
  snd (loop cfg msg timestamp sender_name 0 false st) = None /\
  exists k line,
    1 <= k <= 3 /\
    events st' = (events st ++ attempts_trace attempt k)%list /\
    f st' = (f st ++ [line])%list /\
    message_count st' = message_count st /\
    media_skipped st' = media_skipped st /\
    media_filtered st' = media_filtered st /\
    ((media_count st' = media_count st + 1 /\ media_failed st' = media_failed st /\
      line = media_line timestamp sender_name (media_filename_of msg)) \/
     (k = 3 /\ media_count st' = media_count st /\ media_failed st' = media_failed st + 1 /\
      exists error_msg,
        line = media_line timestamp sender_name ("Download failed - " ++ error_msg))).
Proof.
  intros Hok Hdoc. cbv zeta. rewrite (retry_loop_quiet _ _ _ _ _ Hok Hdoc). cbv zeta.
  split; [reflexivity|]. cbn [fst].
  destruct (client_download_media (world st) msg (media_path_of cfg msg)) as [w1 [|e1]].
  { exists 1; eexists.
    cbn [write incr_media_count incr_media_failed emit message_count media_count
      media_skipped media_filtered media_failed f events world attempts_trace].
    repeat split; try reflexivity; try lia. left; repeat split; reflexivity. }
  destruct (client_download_media w1 msg (media_path_of cfg msg)) as [w2 [|e2]].
  { exists 2; eexists.
    cbn [write incr_media_count incr_media_failed emit message_count media_count
      media_skipped media_filtered media_failed f events world attempts_trace].
    rewrite <- !app_assoc.
    repeat split; try reflexivity; try lia. left; repeat split; reflexivity. }
  destruct (client_download_media w2 msg (media_path_of cfg msg)) as [w3 [|e3]].
  { exists 3; eexists.
    cbn [write incr_media_count incr_media_failed emit message_count media_count
      media_skipped media_filtered media_failed f events world attempts_trace].
    rewrite <- !app_assoc.
    repeat split; try reflexivity; try lia. left; repeat split; reflexivity. }
  exists 3; eexists.
  cbn [write incr_media_count incr_media_failed emit message_count media_count
    media_skipped media_filtered media_failed f events world attempts_trace].
  rewrite <- !app_assoc.
  repeat split; try reflexivity; try lia.
  right. repeat split; try reflexivity. eexists; reflexivity.
Qed.

(** What one message does when no print raises, in full: whether an
    exception leaves it, the count of messages, the lines and the events
    it appends, the world and the media counters. *)
Lemma process_message_summary cfg (st : State W) msg :
  (forall text, console_print text = None) ->
  let st' := step cfg st msg in
  let raised := snd (outcome cfg st msg) in
  message_count st' = message_count st + 1 /\
  exists media_lines new_events,
    f st' = (f st ++ text_lines msg ++ media_lines)%list /\
    events st' = (events st ++ new_events)%list /\
    match media msg with
    | None =>
        raised = None /\
        media_lines = [] /\ new_events = [] /\ world st' = world st /\
        counters st' = counters st
    | Some _ =>
        if download_media cfg then
          match get_media_type msg with
          | Py.Raises error =>
              raised = Some error /\
              media_lines = [] /\ new_events = [] /\ world st' = world st /\
              counters st' = counters st
          | Py.Returns media_type =>
              raised = None /\ List.length media_lines = 1 /\
              media_skipped st' = media_skipped st /\
              if fst (apply_filters (media_filter cfg) (media_max_size cfg)
                        media_type (get_media_size msg))
              then
                media_filtered st' = media_filtered st /\
                exists k,
                  1 <= k <= 3 /\
                  new_events
                  = attempts_trace (EvDownload (msg_id msg) (media_path_of cfg msg)) k /\
                  ((media_count st' = media_count st + 1
                    /\ media_failed st' = media_failed st)
                   \/ (k = 3 /\ media_count st' = media_count st
                       /\ media_failed st' = media_failed st + 1))
              else
                new_events = [] /\ world st' = world st /\
                media_filtered st' = media_filtered st + 1 /\
                media_count st' = media_count st /\ media_failed st' = media_failed st
          end
        else
          raised = None /\ List.length media_lines = 1 /\
          new_events = [] /\ world st' = world st /\
          counters st'
          = (media_count st, media_filtered st, media_failed st, media_skipped st + 1)
    end.
Proof.
  intros Hok. cbv zeta. unfold process_message. rewrite process_message_cases.
  destruct (media msg) as [md|].
  2: { split; [reflexivity|]. exists [], []. cbn [fst snd after_text f events world].
       rewrite !app_nil_r. repeat split; reflexivity. }
  destruct (download_media cfg).
  2: { split; [reflexivity|]. eexists [_], [].
       cbn [fst snd write incr_media_skipped after_text f events world message_count].
       rewrite app_nil_r, <- app_assoc. repeat split; reflexivity. }
  destruct (get_media_type msg) as [media_type|error] eqn:Htype.
  2: { split; [reflexivity|]. exists [], []. cbn [fst snd after_text f events world].
       rewrite !app_nil_r. repeat split; reflexivity. }
  pose proof (classified_has_document msg media_type Htype) as Hdoc.
  destruct (apply_filters _ _ _ _) as [[] reason]; cbn [fst snd].
  - destruct (retry_loop_trace cfg msg (timestamp_of msg) (sender_name_of msg)
                (after_text st msg) Hok Hdoc)
      as (Hnone & k & line & Hk & Hev & Hf & Hn & Hs & Hfl & Hout).
    rewrite Hnone, Hn, Hs, Hfl, Hev, Hf. cbn [after_text message_count media_skipped
      media_filtered events f].
    split; [reflexivity|]. exists [line], (attempts_trace
      (EvDownload (msg_id msg) (media_path_of cfg msg)) k).
    rewrite <- app_assoc. repeat split; try reflexivity.
    exists k. split; [exact Hk|]. split; [reflexivity|].
    cbn [after_text media_count media_failed] in Hout.
    destruct Hout as [(Hc & Hx & _)|(Hk3 & Hc & Hx & _)]; [left | right]; auto.
  - split; [reflexivity|]. eexists [_], [].
    cbn [write incr_media_filtered after_text f events world message_count media_skipped
      media_filtered media_count media_failed].
    rewrite app_nil_r, <- app_assoc. repeat split; reflexivity.
Qed.

End QuietConsole.

(** ** Retries *)

Section Retries.

Context {W : Type}.
Variable client_download_media : W -> Message -> string -> W * DownloadResult.
Variable console_print : string -> option string.

Local Abbreviation loop := (retry_loop client_download_media console_print).
Local Abbreviation outcome := (process_message_outcome client_download_media console_print).
Local Abbreviation step := (process_message client_download_media console_print).
Local Abbreviation run_outcome :=
  (process_messages_outcome client_download_media console_print).


(** X12.  When the first download call of an accepted item returns and the
    prints before and after it return, the item costs one call and no
    wait: it is counted as downloaded, its line names the stored file, and
    no exception leaves the handling of the message. *)
Theorem first_attempt_success cfg (st : State W) msg md media_type w1 :
  media msg = Some md ->
  download_media cfg = true ->
  get_media_type msg = Py.Returns media_type ->
  fst (apply_filters (media_filter cfg) (media_max_size cfg)
         media_type (get_media_size msg)) = true ->
  client_download_media (world st) msg (media_path_of cfg msg) = (w1, Downloaded) ->
  console_print (downloading_text (media_filename_of msg)) = None ->
  console_print tick_text = None ->
  outcome cfg st msg =
  ({| message_count := message_count st + 1;
      media_count := media_count st + 1;
      media_skipped := media_skipped st;
      media_filtered := media_filtered st;
      media_failed := media_failed st;
      f := (f st ++ text_lines msg
            ++ [(line_prefix (timestamp_of msg) (sender_name_of msg)
                 ++ "[MEDIA: " ++ media_filename_of msg ++ "]" ++ Py.nl)%string])%list;
      events := (events st ++ [EvDownload (msg_id msg) (media_path_of cfg msg)])%list;
      world := w1 |}, None).
Proof.
  intros Hmedia Hon Htype Hacc H1 Hp Ht.
  pose proof (classified_has_document msg media_type Htype) as Hdoc.
  rewrite process_message_cases, Hmedia, Hon, Htype.
  destruct (apply_filters _ _ _ _) as [should reason]; cbn [fst] in Hacc; subst should.
  rewrite retry_loop_step; cbn [max_retries Nat.ltb Nat.leb andb negb].
  rewrite (try_download_cases _ _ _ _ _ _ _ Hdoc Hp); cbv zeta.
  cbn [after_text world]. rewrite H1, Ht, retry_loop_stops.
  unfold write, incr_media_count, emit, after_text, media_line.
  cbn [message_count media_count media_skipped media_filtered media_failed f events world].
  now rewrite <- app_assoc.
Qed.

(** X13.  A failure that a later attempt makes good leaves no trace in the
    transcript or the counters: when the first call raises and the second
    returns, and the prints between return, the item is counted as
    downloaded, not as failed, its line names the stored file, and the
    events are the two calls with one wait of three seconds between
    them. *)
Theorem failure_then_success cfg (st : State W) msg md media_type w1 w2 e1 :
  media msg = Some md ->
  download_media cfg = true ->
  get_media_type msg = Py.Returns media_type ->
  fst (apply_filters (media_filter cfg) (media_max_size cfg)
         media_type (get_media_size msg)) = true ->
  client_download_media (world st) msg (media_path_of cfg msg) = (w1, Raised e1) ->
  client_download_media w1 msg (media_path_of cfg msg) = (w2, Downloaded) ->
  console_print (downloading_text (media_filename_of msg)) = None ->
  console_print (retry_text 1 e1) = None ->
  console_print tick_text = None ->
  let attempt := EvDownload (msg_id msg) (media_path_of cfg msg) in
  outcome cfg st msg =
  ({| message_count := message_count st + 1;
      media_count := media_count st + 1;
      media_skipped := media_skipped st;
      media_filtered := media_filtered st;
      media_failed := media_failed st;
      f := (f st ++ text_lines msg
            ++ [(line_prefix (timestamp_of msg) (sender_name_of msg)
                 ++ "[MEDIA: " ++ media_filename_of msg ++ "]" ++ Py.nl)%string])%list;
      events := (events st ++ [attempt; EvSleep 3; attempt])%list;
      world := w2 |}, None).
Proof.
  intros Hmedia Hon Htype Hacc H1 H2 Hp Hr1 Ht. cbv zeta.
  pose proof (classified_has_document msg media_type Htype) as Hdoc.
  rewrite process_message_cases, Hmedia, Hon, Htype.
  destruct (apply_filters _ _ _ _) as [should reason]; cbn [fst] in Hacc; subst should.
  rewrite retry_loop_step; cbn [max_retries Nat.ltb Nat.leb andb negb].
  rewrite (try_download_cases _ _ _ _ _ _ _ Hdoc Hp); cbv zeta.
  cbn [after_text world]. rewrite H1.
  rewrite (on_exception_cases _ _ _ _ _ _ Hr1). cbn [max_retries Nat.leb].
  rewrite retry_loop_step; cbn [max_retries Nat.ltb Nat.leb andb negb].
  rewrite (try_download_cases _ _ _ _ _ _ _ Hdoc Hp); cbv zeta.
  cbn [emit world]. rewrite H2, Ht, retry_loop_stops.
  unfold write, incr_media_count, emit, after_text, media_line.
  cbn [message_count media_count media_skipped media_filtered media_failed f events world].
  now rewrite <- !app_assoc.
Qed.

(** X11.  Whatever the client does, when no print raises an accepted
    media item ends in one of two ways after one to three download calls: counted as
    downloaded, with the line of the stored file and no failure recorded,
    however many attempts failed before; or, after exactly three calls,
    counted as failed, with a failure line. *)
Theorem download_outcome_dichotomy cfg (st : State W) msg md media_type :
  (forall text, console_print text = None) ->
  media msg = Some md ->
  download_media cfg = true ->
  get_media_type msg = Py.Returns media_type ->
  fst (apply_filters (media_filter cfg) (media_max_size cfg)
         media_type (get_media_size msg)) = true ->
  let st' := step cfg st msg in
  let prefix := line_prefix (timestamp_of msg) (sender_name_of msg) in
  snd (outcome cfg st msg) = None /\
  exists k,
    1 <= k <= 3 /\
    events st'
    = (events st ++ attempts_trace (EvDownload (msg_id msg) (media_path_of cfg msg)) k)%list /\
    media_filtered st' = media_filtered st /\ media_skipped st' = media_skipped st /\
    ((media_count st' = media_count st + 1 /\ media_failed st' = media_failed st /\
      f st' = (f st ++ text_lines msg
               ++ [(prefix ++ "[MEDIA: " ++ media_filename_of msg ++ "]" ++ Py.nl)%string])%list)
     \/
     (k = 3 /\ media_count st' = media_count st /\ media_failed st' = media_failed st + 1 /\
      exists error_msg,
        f st' = (f st ++ text_lines msg
                 ++ [(prefix ++ "[MEDIA: Download failed - " ++ error_msg ++ "]"
                      ++ Py.nl)%string])%list)).
Proof.
  intros Hok Hmedia Hon Htype Hacc. cbv zeta.
  pose proof (classified_has_document msg media_type Htype) as Hdoc.
  unfold process_message. rewrite process_message_cases, Hmedia, Hon, Htype.
  destruct (apply_filters _ _ _ _) as [should reason]; cbn [fst] in Hacc; subst should.
  destruct (retry_loop_trace client_download_media console_print cfg msg (timestamp_of msg)
              (sender_name_of msg) (after_text st msg) Hok Hdoc)
    as (Hnone & k & line & Hk & Hev & Hf & _ & Hs & Hfl & Hout).
  split; [exact Hnone|].
  exists k. rewrite Hev, Hf, Hs, Hfl.
  cbn [after_text events f media_filtered media_skipped media_count media_failed] in *.
  rewrite <- app_assoc.
  repeat (split; [solve [assumption | reflexivity]|]).
  destruct Hout as [(Hc & Hx & ->)|(Hk3 & Hc & Hx & e & ->)]; [left | right].
  - repeat split; assumption || reflexivity.
  - repeat split; try assumption. exists e. reflexivity.
Qed.

End Retries.

(** ** Whole runs *)

Section RunProperties.

Context {W : Type}.
Variable client_download_media : W -> Message -> string -> W * DownloadResult.
Variable console_print : string -> option string.

Local Abbreviation loop := (retry_loop client_download_media console_print).
Local Abbreviation outcome := (process_message_outcome client_download_media console_print).
Local Abbreviation step := (process_message client_download_media console_print).
Local Abbreviation run := (process_messages client_download_media console_print).
Local Abbreviation run_outcome :=
  (process_messages_outcome client_download_media console_print).




(** The totals of a run that no exception ends, when no print raises. *)
Lemma run_totals cfg (Hok : forall text, console_print text = None)
    (messages : list Message) : forall st : State W,
  snd (run_outcome cfg st messages) = None ->
  message_count (run cfg st messages) = message_count st + List.length messages /\
  List.length (f (run cfg st messages))
  = List.length (f st) + count_text messages + count_media messages /\
  media_count (run cfg st messages) + media_filtered (run cfg st messages)
    + media_failed (run cfg st messages) + media_skipped (run cfg st messages)
  = media_count st + media_filtered st + media_failed st + media_skipped st
    + count_media messages /\
  (if download_media cfg
   then media_skipped (run cfg st messages) = media_skipped st
   else media_skipped (run cfg st messages) = media_skipped st + count_media messages).
Proof.
  unfold process_messages.
  induction messages as [|msg rest IH]; intros st Hdone;
    cbn [process_messages_outcome fst] in *.
  - unfold count_text, count_media; cbn. destruct (download_media cfg); lia.
  - pose proof (process_message_summary client_download_media console_print cfg st msg Hok)
      as Hsum. cbv zeta in Hsum. unfold process_message in Hsum.
    destruct (outcome cfg st msg) as [st' [raised|]]; cbn [fst snd] in *;
      [discriminate|].
    destruct (progress_indicator console_print cfg st'); cbn [fst snd] in *;
      [discriminate|].
    destruct (IH st' Hdone) as (Hn & Hl & Hsumc & Hsk).
    destruct Hsum as (Hm & lines & evs & Hf & _ & Hcase).
    rewrite Hn, Hl, Hsumc, Hm, Hf, !length_app.
    unfold count_text, count_media, text_lines, counters in *; cbn [filter List.length].
    destruct (media msg) as [md|].
    + destruct (download_media cfg).
      * destruct (get_media_type msg) as [media_type|error];
          [|destruct Hcase as (Hr & _); discriminate].
        destruct Hcase as (_ & Hlen & Hs & Hcase). rewrite Hlen.
        assert (Hc : media_count st' + media_filtered st' + media_failed st'
                     = media_count st + media_filtered st + media_failed st + 1).
        { destruct (fst (apply_filters _ _ _ _)).
          - destruct Hcase as (Hfl & k & _ & _ & [(Hc1 & Hc3)|(_ & Hc1 & Hc3)]); lia.
          - destruct Hcase as (_ & _ & Hfl & Hc1 & Hc3). lia. }
        destruct (negb (message msg =? "")); cbn [List.length]; repeat split; lia.
      * destruct Hcase as (_ & Hlen & _ & _ & Hc). injection Hc as Hc1 Hc2 Hc3 Hc4.
        rewrite Hlen.
        destruct (negb (message msg =? "")); cbn [List.length]; repeat split; lia.
    + destruct Hcase as (_ & -> & _ & _ & Hc). injection Hc as Hc1 Hc2 Hc3 Hc4.
      destruct (negb (message msg =? "")); destruct (download_media cfg);
        cbn [List.length]; repeat split; lia.
Qed.

(** X6.  After a run that no exception ends, when no print raises, the
    count of messages is the number of messages received, and the
    transcript has one line for each message with a text and one line for
    each message with media, no more. *)
Theorem transcript_totals cfg (w : W) (messages : list Message) :
  (forall text, console_print text = None) ->
  snd (download_chat_outcome client_download_media console_print cfg w messages) = None ->
  let final := download_chat client_download_media console_print cfg w messages in
  message_count final = List.length messages /\
  List.length (f final) = count_text messages + count_media messages.
Proof.
  intros Hok Hdone. cbv zeta.
  destruct (run_totals cfg Hok messages (initial_state w) Hdone) as (Hn & Hl & _).
  unfold download_chat, download_chat_outcome, process_messages in *.
  rewrite Hn, Hl. cbn. lia.
Qed.

(** X24.  After a run that no exception ends, when no print raises, the
    four media counters add up to the number of messages with media: with
    downloads enabled, downloaded + filtered + failed is that number and
    nothing is counted as skipped; with downloads disabled, skipped is that
    number and the other three stay at zero. *)
Theorem counters_add_up_when_console_prints cfg (w : W) (messages : list Message) :
  (forall text, console_print text = None) ->
  snd (download_chat_outcome client_download_media console_print cfg w messages) = None ->
  let final := download_chat client_download_media console_print cfg w messages in
  (if download_media cfg then
     media_count final + media_filtered final + media_failed final = count_media messages
     /\ media_skipped final = 0
   else
     media_skipped final = count_media messages
     /\ media_count final + media_filtered final + media_failed final = 0) /\
  media_count final + media_filtered final + media_failed final + media_skipped final
    = count_media messages.
Proof.
  intros Hok Hdone. cbv zeta.
  destruct (run_totals cfg Hok messages (initial_state w) Hdone) as (_ & _ & Hsum & Hsk).
  unfold download_chat, download_chat_outcome, process_messages in *.
  cbn [initial_state media_count media_filtered media_failed media_skipped] in Hsum, Hsk.
  destruct (download_media cfg); repeat split; lia.
Qed.

(** X7.  The run only ever appends: what the transcript and the event log
    hold after the first messages is a prefix of what they hold after more
    messages, and no media counter ever goes down. *)
Theorem run_only_appends cfg (w : W) (earlier later : list Message) :
  let before := download_chat client_download_media console_print cfg w earlier in
  let after := download_chat client_download_media console_print cfg w (earlier ++ later) in
  (exists lines, f after = (f before ++ lines)%list) /\
  (exists evs, events after = (events before ++ evs)%list) /\
  media_count before <= media_count after /\
  media_filtered before <= media_filtered after /\
  media_failed before <= media_failed after /\
  media_skipped before <= media_skipped after.
Proof.
  cbv zeta. unfold download_chat, download_chat_outcome.
  rewrite process_messages_outcome_app.
  set (R := fun a b : State W =>
              (exists lines, f b = (f a ++ lines)%list) /\
              (exists evs, events b = (events a ++ evs)%list) /\
              media_count a <= media_count b /\
              media_filtered a <= media_filtered b /\
              media_failed a <= media_failed b /\
              media_skipped a <= media_skipped b).
  assert (Hrefl : forall st, R st st).
  { intros st. unfold R. repeat split; try lia; exists []; now rewrite app_nil_r. }
  destruct (run_outcome cfg (initial_state w) earlier) as [st [raised|]]; cbn [fst];
    [apply Hrefl|].
  change (fst (run_outcome cfg st later)) with (run cfg st later).
  apply (run_invariant client_download_media console_print cfg R); [exact Hrefl | |].
  - intros a b c ((l1 & Hf1) & (e1 & He1) & A1 & A2 & A3 & A4)
                 ((l2 & Hf2) & (e2 & He2) & B1 & B2 & B3 & B4).
    unfold R. split; [exists (l1 ++ l2)%list; now rewrite Hf2, Hf1, app_assoc|].
    split; [exists (e1 ++ e2)%list; now rewrite He2, He1, app_assoc|]. lia.
  - intros a msg.
    destruct (process_message_grows client_download_media console_print cfg a msg)
      as (_ & (lines & Hf & _) & (evs & He & _) & H1 & H2 & H3 & H4).
    unfold R. split; [now exists lines|]. split; [now exists evs|]. lia.
Qed.

(** With downloads disabled a run from any state leaves the events, the
    world and the count of downloads as they are. *)
Lemma process_messages_disabled cfg :
  download_media cfg = false ->
  forall (messages : list Message) (st : State W),
    events (run cfg st messages) = events st /\
    world (run cfg st messages) = world st /\
    media_count (run cfg st messages) = media_count st.
Proof.
  intros Hoff messages st.
  apply (run_invariant client_download_media console_print cfg
           (fun a b => events b = events a /\ world b = world a
                       /\ media_count b = media_count a)).
  - now repeat split.
  - intros a b c (A1 & A2 & A3) (B1 & B2 & B3). repeat split; congruence.
  - intros a msg.
    destruct (process_message_general client_download_media console_print cfg a msg)
      as [->|[(_ & ->)|[(t & reason & _ & _ & ->)|(Hon & _)]]];
      try (now repeat split).
    congruence.
Qed.

(** X8.  With downloads disabled the client is never asked for a download
    and the loop never waits: the event log stays empty and the world is
    the one the run started in. *)
Theorem no_download_when_disabled cfg (w : W) (messages : list Message) :
  download_media cfg = false ->
  let final := download_chat client_download_media console_print cfg w messages in
  events final = [] /\ world final = w.
Proof.
  intros Hoff. cbv zeta. unfold download_chat, download_chat_outcome.
  destruct (process_messages_disabled cfg Hoff messages (initial_state w)) as (He & Hw & _).
  unfold process_messages in He, Hw. rewrite He, Hw. split; reflexivity.
Qed.

(** X9.  With the filter [all] and no maximum size, as by default, no media
    item is ever filtered. *)
Theorem nothing_filtered_by_default cfg (w : W) (messages : list Message) :
  media_filter cfg = "all" ->
  media_max_size cfg = None ->
  media_filtered (download_chat client_download_media console_print cfg w messages) = 0.
Proof.
  intros Hall Hmax. unfold download_chat, download_chat_outcome.
  change (fst (run_outcome cfg (initial_state w) messages))
    with (run cfg (initial_state w) messages).
  change 0 with (media_filtered (initial_state w)).
  apply (run_invariant client_download_media console_print cfg
           (fun a b => media_filtered b = media_filtered a));
    [reflexivity | intros a b c; congruence |].
  intros a msg.
  destruct (process_message_general client_download_media console_print cfg a msg)
    as [->|[(_ & ->)|[(t & reason & _ & Hrej & _)|(_ & Hext)]]];
    try reflexivity.
  - rewrite Hall, Hmax in Hrej. discriminate.
  - destruct Hext as (_ & _ & Hfl & _). exact Hfl.
Qed.

(** X10.  A media item that the filter refuses is never downloaded: the
    message leaves the events and the world as they were, counts the item
    as filtered and nothing else, and writes one media line with the
    reason, which is always an actual reason. *)
Theorem filtered_item_is_not_downloaded cfg (st : State W) msg md media_type :
  media msg = Some md ->
  download_media cfg = true ->
  get_media_type msg = Py.Returns media_type ->
  fst (apply_filters (media_filter cfg) (media_max_size cfg)
         media_type (get_media_size msg)) = false ->
  exists reason,
    snd (apply_filters (media_filter cfg) (media_max_size cfg)
           media_type (get_media_size msg)) = Some reason /\
    step cfg st msg =
    {| message_count := message_count st + 1;
       media_count := media_count st;
       media_skipped := media_skipped st;
       media_filtered := media_filtered st + 1;
       media_failed := media_failed st;
       f := (f st ++ text_lines msg
             ++ [(line_prefix (timestamp_of msg) (sender_name_of msg)
                  ++ "[MEDIA: " ++ reason ++ "]" ++ Py.nl)%string])%list;
       events := events st;
       world := world st |}.
Proof.
  intros Hmedia Hon Htype Hrefused. unfold process_message.
  rewrite process_message_cases, Hmedia, Hon, Htype.
  destruct (apply_filters_reason (media_filter cfg) (media_max_size cfg)
              media_type (get_media_size msg)) as [Hacc|(reason & Hrej)].
  - rewrite Hacc in Hrefused. discriminate.
  - rewrite Hrej. exists reason. split; [reflexivity|].
    unfold write, incr_media_filtered, after_text, media_line.
    cbn [fst message_count media_count media_skipped media_filtered media_failed f events
      world Py.format_opt negb].
    now rewrite <- app_assoc.
Qed.

(** With a client whose downloads never raise, and when no print raises,
    a message keeps the run free of failures and waits. *)
Lemma process_message_reliable cfg (st : State W) msg :
  (forall text, console_print text = None) ->
  (forall w m p, snd (client_download_media w m p) = Downloaded) ->
  media_failed st = 0 /\ count_sleeps (events st) = 0 /\
  count_downloads (events st) = media_count st ->
  media_failed (step cfg st msg) = 0 /\
  count_sleeps (events (step cfg st msg)) = 0 /\
  count_downloads (events (step cfg st msg)) = media_count (step cfg st msg).
Proof.
  intros Hok Hclient (Hf & Hs & Hd). unfold process_message.
  rewrite process_message_cases.
  destruct (media msg) as [md|]; [|now cbn].
  destruct (download_media cfg); [|now cbn].
  destruct (get_media_type msg) as [media_type|error] eqn:Htype; [|now cbn].
  destruct (apply_filters _ _ _ _) as [[] reason]; [|now cbn].
  rewrite (retry_loop_quiet client_download_media console_print cfg msg _ _ _ Hok
             (classified_has_document msg media_type Htype)).
  cbv zeta. cbn [fst].
  destruct (client_download_media (world (after_text st msg)) msg (media_path_of cfg msg))
    as [w1 r] eqn:Hcall.
  pose proof (Hclient (world (after_text st msg)) msg (media_path_of cfg msg)) as Hr.
  rewrite Hcall in Hr; cbn [snd] in Hr; subst r.
  cbn [write incr_media_count emit after_text media_failed events media_count].
  rewrite count_sleeps_app, count_downloads_app. cbn. lia.
Qed.

(** X14.  With a client whose downloads never raise, and when no print
    raises, a run records no failure and never waits, and makes exactly
    one download call for each item it counts as downloaded. *)
Theorem reliable_client_never_retries cfg (w : W) (messages : list Message) :
  (forall text, console_print text = None) ->
  (forall w m p, snd (client_download_media w m p) = Downloaded) ->
  let final := download_chat client_download_media console_print cfg w messages in
  media_failed final = 0 /\
  count_sleeps (events final) = 0 /\
  count_downloads (events final) = media_count final.
Proof.
  intros Hok Hclient. cbv zeta. unfold download_chat, download_chat_outcome.
  change (fst (run_outcome cfg (initial_state w) messages))
    with (run cfg (initial_state w) messages).
  apply (run_invariant client_download_media console_print cfg
           (fun a b =>
              media_failed a = 0 /\ count_sleeps (events a) = 0 /\
              count_downloads (events a) = media_count a ->
              media_failed b = 0 /\ count_sleeps (events b) = 0 /\
              count_downloads (events b) = media_count b));
    [auto | auto | | repeat split].
  intros st msg. now apply process_message_reliable.
Qed.

(** X22.  Every string written to the history file is a line of one of the
    messages received: it starts with the timestamp and the sender of that
    message in the form [[<timestamp>] <<sender>> ] and ends with a
    newline. *)
Theorem transcript_lines_have_prefix cfg (w : W) (messages : list Message) :
  Forall (fun line => exists msg, In msg messages /\ is_line_of msg line)
         (f (download_chat client_download_media console_print cfg w messages)).
Proof.
  unfold download_chat, download_chat_outcome.
  assert (Hgen : forall (seen : list Message) (st : State W),
            Forall (fun line => exists msg, In msg seen /\ is_line_of msg line) (f st) ->
            Forall (fun line => exists msg, In msg (seen ++ messages) /\ is_line_of msg line)
                   (f (fst (run_outcome cfg st messages)))).
  { induction messages as [|msg rest IH]; intros seen st Hst;
      cbn [process_messages_outcome fst].
    - now rewrite app_nil_r.
    - assert (Hstep : Forall (fun line => exists m, In m (seen ++ [msg])
                                                    /\ is_line_of m line)
                             (f (step cfg st msg))).
      { destruct (process_message_grows client_download_media console_print cfg st msg)
          as (_ & (lines & -> & Hlines) & _).
        apply Forall_app. split.
        - eapply Forall_impl; [|exact Hst].
          intros line (m & Hin & Hl). exists m. split; [|exact Hl].
          apply in_or_app. now left.
        - eapply Forall_impl; [|exact Hlines].
          intros line Hl. exists msg. split; [|exact Hl].
          apply in_or_app. right. now left. }
      replace (seen ++ msg :: rest)%list with ((seen ++ [msg]) ++ rest)%list
        by (now rewrite <- app_assoc).
      unfold process_message in Hstep.
      destruct (outcome cfg st msg) as [st' [raised|]]; cbn [fst] in Hstep |- *.
      + eapply Forall_impl; [|exact Hstep].
        intros line (m & Hin & Hl). exists m. split; [|exact Hl].
        apply in_or_app. now left.
      + destruct (progress_indicator console_print cfg st'); cbn [fst].
        * eapply Forall_impl; [|exact Hstep].
          intros line (m & Hin & Hl). exists m. split; [|exact Hl].
          apply in_or_app. now left.
        * apply IH. exact Hstep. }
  apply (Hgen [] (initial_state w)). constructor.
Qed.

End RunProperties.

(** ** The retry loop on a console that cannot print everything *)

(** C1.  The code on a console that encodes ASCII only, at a photo whose
    download raises twice and then returns.  The third attempt stores the
    file and counts it as downloaded; the print of the tick that follows,
    still inside [try], raises; the handler counts the attempt as the third
    failure and the item as failed.  The run goes to its end with one
    message with media and a sum of downloaded, filtered and failed of
    two: the item is in two counters. *)
Theorem download_counted_twice :
  let messages := [Sample.photo] in
  let result :=
    download_chat_outcome Sample.fails_twice Sample.ascii_console Sample.with_downloads 0
      messages in
  download_media Sample.with_downloads = true /\
  count_media messages = 1 /\
  snd result = None /\
  media_count (fst result) = 1 /\
  media_filtered (fst result) = 0 /\
  media_failed (fst result) = 1 /\
  media_skipped (fst result) = 0 /\
  f (fst result)
  = ["[2024-03-09 12:00:05] <bob> [MEDIA: Download failed - 'ascii' codec can't encode characters in position 1-3: ordinal not in range(128)]"
     ++ Py.nl] /\
  events (fst result)
  = [EvDownload 2 "backup/media/msg_2.jpg"; EvSleep 3;
     EvDownload 2 "backup/media/msg_2.jpg"; EvSleep 3;
     EvDownload 2 "backup/media/msg_2.jpg"].
Proof. vm_compute. repeat split; reflexivity. Qed.

(** C10.  The code on a console that encodes ASCII only, at a photo
    without text whose download returns at once.  The file is stored and
    counted as downloaded; the print of the tick raises before the media
    line is written; the handler waits three seconds, and the loop ends
    because the download has succeeded.  The run goes to its end and the
    transcript has no line for the message. *)
Theorem downloaded_item_without_media_line :
  let result :=
    download_chat_outcome Sample.always_succeeding Sample.ascii_console
      Sample.with_downloads 0 [Sample.photo] in
  message Sample.photo = "" /\
  media Sample.photo <> None /\
  snd result = None /\
  fst result
  = {| message_count := 1; media_count := 1; media_skipped := 0; media_filtered := 0;
       media_failed := 0;
       f := [];
       events := [EvDownload 2 "backup/media/msg_2.jpg"; EvSleep 3];
       world := 1 |}.
Proof. vm_compute. repeat split; try reflexivity. discriminate. Qed.



Lemma download_outcome_dichotomy_witness :
  (forall text, Sample.console text = None) /\
  exists k,
    1 <= k <= 3 /\
    events (process_message Sample.always_failing Sample.console Sample.with_downloads
              (initial_state 0) Sample.photo)
    = attempts_trace (EvDownload 2 "backup/media/msg_2.jpg") k.
Proof.
  split; [reflexivity|].
  destruct (download_outcome_dichotomy Sample.always_failing Sample.console
              Sample.with_downloads (initial_state 0) Sample.photo _ _
              (fun _ => eq_refl) eq_refl eq_refl eq_refl eq_refl)
    as (_ & k & Hk & Hev & _).
  exists k. split; [exact Hk | exact Hev].
Defined.

Lemma first_attempt_success_witness :
  process_message_outcome Sample.always_succeeding Sample.console Sample.with_downloads
    (initial_state 0) Sample.photo =
  ({| message_count := 1; media_count := 1; media_skipped := 0; media_filtered := 0;
      media_failed := 0;
      f := ["[2024-03-09 12:00:05] <bob> [MEDIA: msg_2.jpg]" ++ Py.nl];
      events := [EvDownload 2 "backup/media/msg_2.jpg"];
      world := 1 |}, None).
Proof.
  apply (first_attempt_success Sample.always_succeeding Sample.console Sample.with_downloads
           (initial_state 0) Sample.photo _ _ 1 eq_refl eq_refl eq_refl eq_refl eq_refl
           eq_refl eq_refl).
Defined.

Lemma failure_then_success_witness :
  process_message_outcome fails_once Sample.console Sample.with_downloads (initial_state 0)
    Sample.photo =
  ({| message_count := 1; media_count := 1; media_skipped := 0; media_filtered := 0;
      media_failed := 0;
      f := ["[2024-03-09 12:00:05] <bob> [MEDIA: msg_2.jpg]" ++ Py.nl];
      events := [EvDownload 2 "backup/media/msg_2.jpg"; EvSleep 3;
                 EvDownload 2 "backup/media/msg_2.jpg"];
      world := 2 |}, None).
Proof.
  apply (failure_then_success fails_once Sample.console Sample.with_downloads
           (initial_state 0) Sample.photo _ _ 1 2 "Timeout" eq_refl eq_refl eq_refl eq_refl
           eq_refl eq_refl eq_refl eq_refl eq_refl).
Defined.

(** ** Whole runs: sample inputs *)


Lemma transcript_totals_witness :
  (forall text, Sample.console text = None) /\
  snd (download_chat_outcome Sample.always_failing Sample.console Sample.with_downloads 0
         [Sample.hello; Sample.photo; Sample.video]) = None /\
  let final :=
    download_chat Sample.always_failing Sample.console Sample.with_downloads 0
      [Sample.hello; Sample.photo; Sample.video] in
  message_count final = 3 /\ List.length (f final) = 2 + 2.
Proof.
  split; [reflexivity|]. split; [reflexivity|].
  apply (transcript_totals Sample.always_failing Sample.console Sample.with_downloads 0
           [Sample.hello; Sample.photo; Sample.video] (fun _ => eq_refl) eq_refl).
Defined.

Lemma counters_add_up_when_console_prints_witness :
  (forall text, Sample.console text = None) /\
  snd (download_chat_outcome Sample.always_failing Sample.console Sample.with_downloads 0
         [Sample.hello; Sample.photo; Sample.video]) = None /\
  let final :=
    download_chat Sample.always_failing Sample.console Sample.with_downloads 0
      [Sample.hello; Sample.photo; Sample.video] in
  media_count final + media_filtered final + media_failed final + media_skipped final = 2.
Proof.
  split; [reflexivity|]. split; [reflexivity|].
  apply (proj2 (counters_add_up_when_console_prints Sample.always_failing Sample.console
                  Sample.with_downloads 0 [Sample.hello; Sample.photo; Sample.video]
                  (fun _ => eq_refl) eq_refl)).
Defined.

Lemma no_download_when_disabled_witness :
  download_media default_config = false /\
  events (download_chat Sample.always_failing Sample.console default_config 0
            [Sample.hello; Sample.photo; Sample.video]) = [] /\
  world (download_chat Sample.always_failing Sample.console default_config 0
           [Sample.hello; Sample.photo; Sample.video]) = 0.
Proof.
  split; [reflexivity|].
  apply (no_download_when_disabled Sample.always_failing Sample.console default_config 0
           [Sample.hello; Sample.photo; Sample.video] eq_refl).
Defined.

Lemma nothing_filtered_by_default_witness :
  media_filter (set_download_media default_config) = "all" /\
  media_max_size (set_download_media default_config) = None /\
  media_filtered (download_chat Sample.always_failing Sample.console
                    (set_download_media default_config) 0
                    [Sample.hello; Sample.photo; Sample.video]) = 0.
Proof.
  split; [reflexivity|]. split; [reflexivity|].
  apply (nothing_filtered_by_default Sample.always_failing Sample.console
           (set_download_media default_config)
           0 [Sample.hello; Sample.photo; Sample.video] eq_refl eq_refl).
Defined.

Lemma filtered_item_is_not_downloaded_witness :
  get_media_type Sample.video = Py.Returns (Some "video") /\
  exists reason,
    snd (apply_filters "all" (Some 5000000%Z)
           (Some "video") (get_media_size Sample.video)) = Some reason /\
    process_message Sample.always_succeeding Sample.console Sample.with_downloads
      (initial_state 0) Sample.video =
    {| message_count := 1; media_count := 0; media_skipped := 0; media_filtered := 1;
       media_failed := 0;
       f := ["[2024-03-09 12:00:05] <Unknown> look" ++ Py.nl;
             ("[2024-03-09 12:00:05] <Unknown> " ++ "[MEDIA: " ++ reason ++ "]" ++ Py.nl)%string];
       events := []; world := 0 |}.
Proof.
  split; [reflexivity|].
  apply (filtered_item_is_not_downloaded Sample.always_succeeding Sample.console
           Sample.with_downloads (initial_state 0) Sample.video _ _
           eq_refl eq_refl eq_refl eq_refl).
Defined.

Lemma reliable_client_never_retries_witness :
  (forall text, Sample.console text = None) /\
  (forall w m p, snd (Sample.always_succeeding w m p) = Downloaded) /\
  media_failed (download_chat Sample.always_succeeding Sample.console Sample.with_downloads 0
                  [Sample.hello; Sample.photo; Sample.video]) = 0.
Proof.
  assert (H : forall w m p, snd (Sample.always_succeeding w m p) = Downloaded)
    by (intros; reflexivity).
  split; [reflexivity|]. split; [exact H|].
  apply (reliable_client_never_retries Sample.always_succeeding Sample.console
           Sample.with_downloads 0
           [Sample.hello; Sample.photo; Sample.video] (fun _ => eq_refl) H).
Defined.

(** ** A document that is missing *)

Section MissingDocument.

Context {W : Type}.
Variable client_download_media : W -> Message -> string -> W * DownloadResult.
Variable console_print : string -> option string.

(** X25.  With downloads enabled, a message whose media is a document
    variant without a document ends the run: the classifier raises outside
    any [try], after the message has been counted and its text written;
    nothing is downloaded, no media line is written for it, no media
    counter moves, and the messages after it are not read. *)
Theorem missing_document_ends_run cfg (st : State W) msg (rest : list Message) :
  media msg = Some MessageMediaDocumentNone ->
  download_media cfg = true ->
  process_messages_outcome client_download_media console_print cfg st (msg :: rest)
  = ({| message_count := message_count st + 1;
        media_count := media_count st;
        media_skipped := media_skipped st;
        media_filtered := media_filtered st;
        media_failed := media_failed st;
        f := (f st ++ text_lines msg)%list;
        events := events st;
        world := world st |},
     Some "'NoneType' object has no attribute 'attributes'").
Proof.
  intros Hmedia Hon. cbn [process_messages_outcome].
  rewrite process_message_cases, Hmedia, Hon.
  unfold get_media_type. rewrite Hmedia. reflexivity.
Qed.

End MissingDocument.

Lemma missing_document_ends_run_witness :
  download_chat_outcome Sample.always_succeeding Sample.console Sample.with_downloads 0
    [Sample.expired; Sample.hello]
  = ({| message_count := 1; media_count := 0; media_skipped := 0; media_filtered := 0;
        media_failed := 0; f := []; events := []; world := 0 |},
     Some "'NoneType' object has no attribute 'attributes'").
Proof.
  apply (missing_document_ends_run Sample.always_succeeding Sample.console
           Sample.with_downloads (initial_state 0) Sample.expired [Sample.hello]
           eq_refl eq_refl).
Defined.

(** ** Sender name *)

(** The name written for the sender, case by case: the username when it is
    a non-empty string; otherwise the value of [first_name] when the sender
    has that attribute, whatever the value; ["Unknown"] when the sender has
    no such attribute or the message has no sender. *)
Lemma sender_name_of_cases (msg : Message) :
  sender_name_of msg =
  match sender msg with
  | None => Py.PyStr "Unknown"
  | Some s =>
      match username s with
      | Some (Py.PyStr (String c rest)) => Py.PyStr (String c rest)
      | _ =>
          match first_name s with
          | None => Py.PyStr "Unknown"
          | Some v => v
          end
      end
  end.
Proof.
  unfold sender_name_of.
  destruct (sender msg) as [s|]; [|reflexivity].
  destruct (username s) as [[|[|c rest]]|]; reflexivity.
Qed.

(** C5.  The code at a sender whose [username] and [first_name] are both
    [None], as for a deleted account: the name is [None], not ["Unknown"],
    and the transcript line reads [<None>]. *)
Theorem sender_name_none_is_written :
  sender_name_of Sample.from_deleted_account = Py.PyNone /\
  f (download_chat Sample.always_succeeding Sample.console default_config 0
       [Sample.from_deleted_account])
  = ["[2024-03-09 12:00:05] <None> hi" ++ Py.nl].
Proof. split; reflexivity. Qed.

(** ** Command line *)

Lemma mem_In (x : string) (l : list string) : Py.mem x l = true <-> In x l.
Proof.
  unfold Py.mem. rewrite existsb_exists. split.
  - intros (y & Hin & Heq). apply String.eqb_eq in Heq. now subst.
  - intros Hin. exists x. split; [assumption | apply String.eqb_refl].
Qed.

(** The turn of the loop at [--media-filter] followed by a value. *)
Lemma parse_options_media_filter (py_int : string -> option Z) (value : string)
    (rest : list string) (cfg : Config) :
  parse_options py_int ("--media-filter" :: value :: rest) cfg =
  if Py.mem (Py.lower value) valid_filters
  then parse_options py_int rest (set_media_filter (Py.lower value) cfg)
  else inr 1%Z.
Proof.
  cbn [parse_options].
  change (Py.startswith "--media-filter" "--") with true.
  change (Py.mem "--media-filter" valid_options) with true.
  change ("--media-filter" =? "--download-media") with false.
  change ("--media-filter" =? "--output-dir") with false.
  change ("--media-filter" =? "--media-filter") with true.
  cbn [negb]. destruct (Py.mem (Py.lower value) valid_filters); reflexivity.
Qed.

(** C9.  The value of [--media-filter] is lowercased before it is
    validated and stored: when its lowercase form is one of image, audio,
    video, other, all, parsing goes on with that lowercase form as the
    filter; otherwise [main] exits with code 1.  A value thus behaves as its
    lowercase form, and [IMAGE] is accepted as [image]. *)
Theorem media_filter_is_lowercased (py_int : string -> option Z) (value : string)
    (rest : list string) (cfg : Config) :
  ((In (Py.lower value) ["image"; "audio"; "video"; "other"; "all"] /\
    parse_options py_int ("--media-filter" :: value :: rest) cfg =
    parse_options py_int rest (set_media_filter (Py.lower value) cfg))
   \/
   (~ In (Py.lower value) ["image"; "audio"; "video"; "other"; "all"] /\
    parse_options py_int ("--media-filter" :: value :: rest) cfg = inr 1%Z)) /\
  parse_options py_int ("--media-filter" :: value :: rest) cfg =
  parse_options py_int ("--media-filter" :: Py.lower value :: rest) cfg /\
  main decimal_int
    ["telegram_backup.py"; "12345"; "abcdef123456"; "username";
     "--download-media"; "--media-filter"; "IMAGE"] =
  Run 12345 "abcdef123456" "username"
    {| output_dir := "backup"; download_media := true; media_filter := "image";
       media_max_size := None |} /\
  main decimal_int
    ["telegram_backup.py"; "12345"; "abcdef123456"; "username";
     "--download-media"; "--media-filter"; "pictures"] = Exit 1.
Proof.
  split; [|split; [|split; reflexivity]].
  - rewrite parse_options_media_filter.
    destruct (Py.mem (Py.lower value) valid_filters) eqn:Hmem.
    + left. split; [|reflexivity]. apply mem_In. exact Hmem.
    + right. split; [|reflexivity]. intros Hin. apply mem_In in Hin.
      unfold valid_filters in Hmem. congruence.
  - rewrite !parse_options_media_filter, lower_idempotent. reflexivity.
Qed.

(** ** Sample runs *)

(** The three sample messages with downloads enabled, no type filter and a
    maximum of 5,000,000 bytes. *)
Example run_with_max_size :
  download_chat Sample.always_succeeding Sample.console Sample.with_downloads 0
    [Sample.hello; Sample.photo; Sample.video] =
  {| message_count := 3; media_count := 1; media_skipped := 0; media_filtered := 1;
     media_failed := 0;
     f := ["[2024-03-09 12:00:05] <bob> hello" ++ Py.nl;
           "[2024-03-09 12:00:05] <bob> [MEDIA: msg_2.jpg]" ++ Py.nl;
           "[2024-03-09 12:00:05] <Unknown> look" ++ Py.nl;
           "[2024-03-09 12:00:05] <Unknown> [MEDIA: too large (10,000,000 bytes)]" ++ Py.nl];
     events := [EvDownload 2 "backup/media/msg_2.jpg"];
     world := 1 |}.
Proof. reflexivity. Qed.

(** The same messages with the filter [audio]: both media items are
    refused for their type. *)
Example run_with_audio_filter :
  let final :=
    download_chat Sample.always_succeeding Sample.console
      {| output_dir := "backup"; download_media := true; media_filter := "audio";
         media_max_size := Some 5000000%Z |} 0
      [Sample.hello; Sample.photo; Sample.video] in
  media_filtered final = 2 /\ media_count final = 0 /\
  f final = ["[2024-03-09 12:00:05] <bob> hello" ++ Py.nl;
             "[2024-03-09 12:00:05] <bob> [MEDIA: filtered (image)]" ++ Py.nl;
             "[2024-03-09 12:00:05] <Unknown> look" ++ Py.nl;
             "[2024-03-09 12:00:05] <Unknown> [MEDIA: filtered (video)]" ++ Py.nl].
Proof. repeat split; reflexivity. Qed.

(** A mime type whose top-level token is none of image, audio, video
    leaves the decision to the attributes. *)
Example mime_falls_through_to_attributes :
  get_media_type Sample.ogg = Py.Returns (Some "audio").
Proof. reflexivity. Qed.

Example format_comma_examples :
  Py.format_comma 10000000 = "10,000,000" /\ Py.format_comma 999 = "999" /\
  Py.format_comma 1000 = "1,000" /\ Py.format_comma 0 = "0".
Proof. repeat split; reflexivity. Qed.

Example splitext_examples :
  Py.splitext "clip.mp4" = ("clip", ".mp4") /\
  Py.splitext "archive.tar.gz" = ("archive.tar", ".gz") /\
  Py.splitext ".bashrc" = (".bashrc", "") /\
  Py.splitext "dir.d/name" = ("dir.d/name", "").
Proof. repeat split; reflexivity. Qed.

(** * Further properties *)

(** ** More on the command line *)

Section MainProperties.

Variable py_int : string -> option Z.

(** The loop over the options exits with code 1 only. *)
Lemma parse_options_exit_code (args : list string) (cfg : Config) (code : Z) :
  parse_options py_int args cfg = inr code -> code = 1%Z.
Proof.
  functional induction (parse_options py_int args cfg); intros H;
    try (injection H as <-; reflexivity); try discriminate; auto.
Qed.

(** What the loop over the options guarantees of the options it returns. *)
Lemma parse_options_valid (args : list string) (cfg cfg' : Config) :
  parse_options py_int args cfg = inl cfg' ->
  (In (media_filter cfg) valid_filters -> In (media_filter cfg') valid_filters) /\
  ((forall limit, media_max_size cfg = Some limit -> (0 < limit)%Z) ->
   forall limit, media_max_size cfg' = Some limit -> (0 < limit)%Z).
Proof.
  functional induction (parse_options py_int args cfg); intros H; try discriminate.
  - injection H as <-. split; auto.
  - apply IHs in H. exact H.
  - apply IHs in H. exact H.
  - apply IHs in H. destruct H as [Hf Hm]. split; [|exact Hm].
    intros _. apply Hf.
    apply (proj1 (mem_In (Py.lower value) valid_filters)). now apply negb_false_iff.
  - apply IHs in H. destruct H as [Hf Hm]. split; [exact Hf|].
    intros Hpos. apply Hm.
    intros limit Hl. simpl in Hl. injection Hl as <-. now apply Z.leb_gt.
Qed.

(** An option that does not occur on the command line keeps its value. *)
Lemma parse_options_keeps (args : list string) (cfg cfg' : Config) :
  parse_options py_int args cfg = inl cfg' ->
  (~ In "--download-media" args -> download_media cfg' = download_media cfg) /\
  (~ In "--media-filter" args -> media_filter cfg' = media_filter cfg) /\
  (~ In "--media-max-size" args -> media_max_size cfg' = media_max_size cfg) /\
  (~ In "--output-dir" args -> output_dir cfg' = output_dir cfg).
Proof.
  functional induction (parse_options py_int args cfg); intros H; try discriminate.
  - injection H as <-. repeat split; reflexivity.
  - apply IHs in H. destruct H as (Hd & Hf & Hm & Ho).
    apply String.eqb_eq in e2; subst arg.
    repeat split; intros Hn.
    + exfalso. apply Hn. now left.
    + rewrite Hf; [reflexivity|]. intros Hin. apply Hn. now right.
    + rewrite Hm; [reflexivity|]. intros Hin. apply Hn. now right.
    + rewrite Ho; [reflexivity|]. intros Hin. apply Hn. now right.
  - apply IHs in H. destruct H as (Hd & Hf & Hm & Ho).
    apply String.eqb_eq in e3; subst arg.
    repeat split; intros Hn.
    + rewrite Hd; [reflexivity|]. intros Hin. apply Hn. now right; right.
    + rewrite Hf; [reflexivity|]. intros Hin. apply Hn. now right; right.
    + rewrite Hm; [reflexivity|]. intros Hin. apply Hn. now right; right.
    + exfalso. apply Hn. now left.
  - apply IHs in H. destruct H as (Hd & Hf & Hm & Ho).
    apply String.eqb_eq in e4; subst arg.
    repeat split; intros Hn.
    + rewrite Hd; [reflexivity|]. intros Hin. apply Hn. now right; right.
    + exfalso. apply Hn. now left.
    + rewrite Hm; [reflexivity|]. intros Hin. apply Hn. now right; right.
    + rewrite Ho; [reflexivity|]. intros Hin. apply Hn. now right; right.
  - apply IHs in H. destruct H as (Hd & Hf & Hm & Ho).
    repeat split; intros Hn.
    + rewrite Hd; [reflexivity|]. intros Hin. apply Hn. now right; right.
    + rewrite Hf; [reflexivity|]. intros Hin. apply Hn. now right; right.
    + exfalso. apply Hn. left.
      apply negb_false_iff in e1. apply mem_In in e1.
      apply String.eqb_neq in e2, e3, e4.
      cbn in e1. intuition congruence.
    + rewrite Ho; [reflexivity|]. intros Hin. apply Hn. now right; right.
Qed.

Lemma In_skipn_In (n : nat) (x : string) (l : list string) : In x (skipn n l) -> In x l.
Proof.
  revert l; induction n as [|n IH]; intros l H; [exact H|].
  destruct l as [|y l]; [exact H|]. right. apply IH. exact H.
Qed.

(** X1.  A help flag anywhere on the command line, even as the value of an
    option or beside invalid arguments, makes [main] print the help and
    exit with code 0. *)
Theorem help_flag_exits_zero (argv : list string) :
  In "--help" argv \/ In "-h" argv -> main py_int argv = Exit 0.
Proof.
  intros H. unfold main.
  destruct H as [H|H]; apply mem_In in H; rewrite H; [reflexivity|].
  now rewrite orb_true_r.
Qed.

(** X2.  [main] exits with code 0 or 1 only: with 0 exactly when a help
    flag is on the command line, with 1 for every other exit. *)
Theorem main_exit_codes (argv : list string) (code : Z) :
  main py_int argv = Exit code ->
  (code = 0%Z /\ (In "--help" argv \/ In "-h" argv)) \/
  (code = 1%Z /\ ~ In "--help" argv /\ ~ In "-h" argv).
Proof.
  unfold main.
  destruct (Py.mem "--help" argv) eqn:Hh; cbn [orb].
  { intros H; injection H as <-. left. split; [reflexivity|]. left. now apply mem_In. }
  destruct (Py.mem "-h" argv) eqn:Hs.
  { intros H; injection H as <-. left. split; [reflexivity|]. right. now apply mem_In. }
  assert (Hno : ~ In "--help" argv /\ ~ In "-h" argv).
  { split; intros Hin; apply mem_In in Hin; congruence. }
  intros H. right. split; [|exact Hno].
  destruct (List.length argv <? 4)%nat; [now injection H as <-|].
  destruct (py_int (nth 1 argv "")); [|now injection H as <-].
  destruct (parse_options py_int (skipn 4 argv) default_config) as [cfg|c] eqn:Hp;
    [discriminate|].
  injection H as <-. now apply parse_options_exit_code in Hp.
Qed.

(** X3.  When [main] starts the export, the command line had no help flag
    and at least the three required arguments, the first of them a number;
    the media filter is one of image, audio, video, other, all; and the
    maximum size is either not set or strictly positive. *)
Theorem main_run_is_valid (argv : list string) (api_id : Z)
    (api_hash chat_username : string) (cfg : Config) :
  main py_int argv = Run api_id api_hash chat_username cfg ->
  ~ In "--help" argv /\ ~ In "-h" argv /\
  4 <= List.length argv /\
  py_int (nth 1 argv "") = Some api_id /\
  api_hash = nth 2 argv "" /\ chat_username = nth 3 argv "" /\
  In (media_filter cfg) ["image"; "audio"; "video"; "other"; "all"] /\
  (media_max_size cfg = None \/
   exists limit, media_max_size cfg = Some limit /\ (0 < limit)%Z).
Proof.
  unfold main.
  destruct (Py.mem "--help" argv) eqn:Hh; cbn [orb]; [discriminate|].
  destruct (Py.mem "-h" argv) eqn:Hs; [discriminate|].
  destruct (Nat.ltb_spec (List.length argv) 4) as [|Hlen]; [discriminate|].
  destruct (py_int (nth 1 argv "")) as [n|]; [|discriminate].
  destruct (parse_options py_int (skipn 4 argv) default_config) as [cfg0|c] eqn:Hp;
    [|discriminate].
  intros H; injection H as <- <- <- <-.
  apply parse_options_valid in Hp. destruct Hp as [Hf Hm].
  split; [intros Hin; apply mem_In in Hin; congruence|].
  split; [intros Hin; apply mem_In in Hin; congruence|].
  repeat (split; [solve [assumption | reflexivity]|]).
  split.
  - apply Hf. cbn. auto 6.
  - destruct (media_max_size cfg0) as [limit|] eqn:Hl; [right|now left].
    exists limit. split; [reflexivity|]. apply (Hm ltac:(discriminate) limit eq_refl).
Qed.

(** X4.  An option whose name does not occur on the command line has its
    default in the export that [main] starts: downloads disabled, filter
    [all], no maximum size, output directory [backup]. *)
Theorem main_defaults (argv : list string) (api_id : Z)
    (api_hash chat_username : string) (cfg : Config) :
  main py_int argv = Run api_id api_hash chat_username cfg ->
  (~ In "--download-media" argv -> download_media cfg = false) /\
  (~ In "--media-filter" argv -> media_filter cfg = "all") /\
  (~ In "--media-max-size" argv -> media_max_size cfg = None) /\
  (~ In "--output-dir" argv -> output_dir cfg = "backup").
Proof.
  unfold main.
  destruct (Py.mem "--help" argv || Py.mem "-h" argv); [discriminate|].
  destruct (List.length argv <? 4)%nat; [discriminate|].
  destruct (py_int (nth 1 argv "")) as [n|]; [|discriminate].
  destruct (parse_options py_int (skipn 4 argv) default_config) as [cfg0|c] eqn:Hp;
    [|discriminate].
  intros H; injection H as <- <- <- <-.
  apply parse_options_keeps in Hp. destruct Hp as (Hd & Hf & Hm & Ho).
  repeat split; intros Hn;
    [rewrite Hd | rewrite Hf | rewrite Hm | rewrite Ho]; try reflexivity;
    intros Hin; apply Hn; eapply In_skipn_In; exact Hin.
Qed.

End MainProperties.

Lemma help_flag_exits_zero_witness :
  (In "--help" ["telegram_backup.py"; "x"; "--output-dir"; "--help"] \/
   In "-h" ["telegram_backup.py"; "x"; "--output-dir"; "--help"]) /\
  main decimal_int ["telegram_backup.py"; "x"; "--output-dir"; "--help"] = Exit 0.
Proof.
  assert (H : In "--help" ["telegram_backup.py"; "x"; "--output-dir"; "--help"] \/
              In "-h" ["telegram_backup.py"; "x"; "--output-dir"; "--help"])
    by (left; cbn; auto).
  split; [exact H|]. apply (help_flag_exits_zero decimal_int _ H).
Defined.

Lemma main_exit_codes_witness :
  main decimal_int ["telegram_backup.py"; "12345"; "hash"; "chat"; "--media-max-size"; "0"]
  = Exit 1 /\
  ((1 = 0 /\ (In "--help" ["telegram_backup.py"; "12345"; "hash"; "chat"; "--media-max-size"; "0"]
               \/ In "-h" ["telegram_backup.py"; "12345"; "hash"; "chat"; "--media-max-size"; "0"]))
   \/
   (1 = 1 /\ ~ In "--help" ["telegram_backup.py"; "12345"; "hash"; "chat"; "--media-max-size"; "0"]
    /\ ~ In "-h" ["telegram_backup.py"; "12345"; "hash"; "chat"; "--media-max-size"; "0"]))%Z.
Proof.
  split; [reflexivity|].
  apply (main_exit_codes decimal_int
           ["telegram_backup.py"; "12345"; "hash"; "chat"; "--media-max-size"; "0"] 1 eq_refl).
Defined.

Lemma main_run_is_valid_witness :
  In (media_filter (set_media_max_size 5242880 (set_media_filter "image"
        (set_download_media default_config))))
     ["image"; "audio"; "video"; "other"; "all"].
Proof.
  apply (main_run_is_valid decimal_int
           ["telegram_backup.py"; "12345"; "abcdef123456"; "username"; "--download-media";
            "--media-filter"; "Image"; "--media-max-size"; "5242880"]
           12345 "abcdef123456" "username" _ eq_refl).
Defined.

Lemma main_defaults_witness :
  main decimal_int ["telegram_backup.py"; "12345"; "abcdef123456"; "username";
                    "--output-dir"; "out"] =
  Run 12345 "abcdef123456" "username" (set_output_dir "out" default_config) /\
  download_media (set_output_dir "out" default_config) = false.
Proof.
  split; [reflexivity|].
  apply (main_defaults decimal_int
           ["telegram_backup.py"; "12345"; "abcdef123456"; "username"; "--output-dir"; "out"]
           12345 "abcdef123456" "username" _ eq_refl).
  cbn. intuition discriminate.
Defined.

(** ** More on the classifier *)

Lemma attributes_media_type_range (attrs : list DocumentAttribute) (t : string) :
  attributes_media_type attrs = Some t -> In t ["image"; "audio"; "video"; "other"].
Proof.
  induction attrs as [|attr rest IH]; cbn [attributes_media_type]; [discriminate|].
  destruct (Py.contains "Audio" (type_name attr) || Py.contains "Voice" (type_name attr));
    [intros H; injection H as <-; cbn; auto|].
  destruct (Py.contains "Video" (type_name attr)); [intros H; injection H as <-; cbn; auto|].
  destruct (Py.contains "Photo" (type_name attr)); [intros H; injection H as <-; cbn; auto|].
  exact IH.
Qed.

(** X15.  The classifier returns [None] exactly for a message without
    media; for a message with media it returns one of image, audio, video,
    other, the four names that a type filter can select, unless the media
    is a document variant whose document is missing: then it raises, and
    returns nothing. *)
Theorem get_media_type_range (msg : Message) :
  match media msg with
  | None => get_media_type msg = Py.Returns None
  | Some MessageMediaDocumentNone =>
      get_media_type msg = Py.Raises "'NoneType' object has no attribute 'attributes'"
  | Some _ =>
      exists classification,
        get_media_type msg = Py.Returns (Some classification) /\
        In classification ["image"; "audio"; "video"; "other"]
  end.
Proof.
  unfold get_media_type.
  destruct (media msg) as [[photo|doc| |]|]; try reflexivity;
    try (eexists; split; [reflexivity | cbn; auto]).
  unfold mime_media_type.
  destruct (mime_type doc) as [m|].
  - destruct (negb (m =? "")).
    + destruct (Py.startswith (Py.lower m) "image/");
        [eexists; split; [reflexivity | cbn; auto]|].
      destruct (Py.startswith (Py.lower m) "audio/");
        [eexists; split; [reflexivity | cbn; auto]|].
      destruct (Py.startswith (Py.lower m) "video/");
        [eexists; split; [reflexivity | cbn; auto]|].
      destruct (attributes_media_type (attributes doc)) as [t|] eqn:Ha;
        [|eexists; split; [reflexivity | cbn; auto]].
      exists t. split; [reflexivity|]. exact (attributes_media_type_range _ _ Ha).
    + destruct (attributes_media_type (attributes doc)) as [t|] eqn:Ha;
        [|eexists; split; [reflexivity | cbn; auto]].
      exists t. split; [reflexivity|]. exact (attributes_media_type_range _ _ Ha).
  - destruct (attributes_media_type (attributes doc)) as [t|] eqn:Ha;
      [|eexists; split; [reflexivity | cbn; auto]].
    exists t. split; [reflexivity|]. exact (attributes_media_type_range _ _ Ha).
Qed.

Lemma lower_empty (s : string) : (Py.lower s =? "") = (s =? "").
Proof. destruct s; reflexivity. Qed.

(** X16.  The letter case of a mime type does not matter to the class of
    a document: the document classifies as it does with its mime type in
    lowercase. *)
Theorem mime_type_case_insensitive (msg_id : Z) (sender : option Sender)
    (date : option DateTime) (text mime : string) (attrs : list DocumentAttribute)
    (size : option Z) :
  get_media_type
    {| msg_id := msg_id; sender := sender; date := date; message := text;
       media := Some (MessageMediaDocument
                        {| mime_type := Some mime; attributes := attrs; size := size |}) |}
  = get_media_type
      {| msg_id := msg_id; sender := sender; date := date; message := text;
         media := Some (MessageMediaDocument
                          {| mime_type := Some (Py.lower mime); attributes := attrs;
                             size := size |}) |}.
Proof.
  unfold get_media_type, mime_media_type. cbn [media mime_type attributes].
  now rewrite lower_empty, lower_idempotent.
Qed.

(** X17.  The attributes of a document are scanned from the first on: the
    class of two lists of attributes put together is the class of the first
    list when it signals one, and that of the second list otherwise. *)
Theorem attributes_media_type_app (first second : list DocumentAttribute) :
  attributes_media_type (first ++ second) =
  match attributes_media_type first with
  | Some t => Some t
  | None => attributes_media_type second
  end.
Proof.
  induction first as [|attr rest IH]; [reflexivity|].
  cbn [app attributes_media_type].
  destruct (Py.contains "Audio" (type_name attr) || Py.contains "Voice" (type_name attr));
    [reflexivity|].
  destruct (Py.contains "Video" (type_name attr)); [reflexivity|].
  destruct (Py.contains "Photo" (type_name attr)); [reflexivity|].
  exact IH.
Qed.

(** ** The progress callback *)

Lemma progress_reports_bound (reports : list Z) : forall (last_update : Z) (dots : nat),
  (Z.of_nat dots * (100 * 1024) <= last_update)%Z ->
  (Z.of_nat (fst (progress_reports last_update dots reports)) * (100 * 1024)
   <= snd (progress_reports last_update dots reports))%Z /\
  (snd (progress_reports last_update dots reports) = last_update \/
   In (snd (progress_reports last_update dots reports)) reports).
Proof.
  induction reports as [|current rest IH]; intros last_update dots Hinv;
    cbn [progress_reports fst snd].
  - split; [exact Hinv | now left].
  - unfold progress_callback.
    destruct (Z.leb_spec (100 * 1024) (current - last_update)) as [Hge|Hlt].
    + destruct (IH current (S dots)) as [Hb Hin]; [lia|].
      split; [exact Hb|]. right. destruct Hin as [->|Hin]; [now left | now right].
    + destruct (IH last_update dots Hinv) as [Hb Hin].
      split; [exact Hb|]. destruct Hin as [Hin|Hin]; [now left | right; now right].
Qed.

(** X18.  In the course of one download the progress callback prints at
    most one dot for each 100 KiB of the progress reported: the number of
    dots times 102400 is at most the last value it recorded, which is 0 or
    one of the reported values. *)
Theorem progress_dots_bound (reports : list Z) :
  let '(dots, last_update) := progress_reports 0 0 reports in
  (Z.of_nat dots * 102400 <= last_update)%Z /\
  (last_update = 0%Z \/ In last_update reports).
Proof.
  pose proof (progress_reports_bound reports 0 0 ltac:(lia)) as H.
  destruct (progress_reports 0 0 reports) as [dots last_update].
  exact H.
Qed.

(** ** The name and the path of a stored file *)

Lemma append_empty (s : string) : s ++ "" = s.
Proof. induction s as [|c s IH]; cbn [append]; [reflexivity | now rewrite IH]. Qed.

Lemma no_slash_app (a b : string) : no_slash (a ++ b) = no_slash a && no_slash b.
Proof.
  induction a as [|c a IH]; cbn [append no_slash]; [reflexivity|].
  now rewrite IH, andb_assoc.
Qed.

Lemma no_slash_uint (d : Decimal.uint) : no_slash (NilEmpty.string_of_uint d) = true.
Proof. induction d; cbn [NilEmpty.string_of_uint no_slash]; try exact IHd; reflexivity. Qed.

(** The decimal digits of a number have no slash. *)
Lemma no_slash_str_int (n : Z) : no_slash (Py.str_int n) = true.
Proof.
  unfold Py.str_int, NilZero.string_of_int, NilZero.string_of_uint.
  destruct (Z.to_int n) as [d|d]; destruct d; cbn [no_slash];
    try reflexivity; try apply (no_slash_uint (_ d)).
Qed.

(** A string none of whose characters is a slash. *)
Lemma no_slash_get (s : string) :
  (forall k, String.get k s <> Some "/"%char) -> no_slash s = true.
Proof.
  induction s as [|c s IH]; intros H; cbn [no_slash]; [reflexivity|].
  rewrite IH by (intros k; exact (H (S k))).
  destruct (Ascii.eqb_spec c "/") as [->|_]; [|reflexivity].
  exfalso. exact (H 0 eq_refl).
Qed.

(** [rfind] is at or after every occurrence of the character. *)
Lemma rfind_from_bound (c : ascii) (s : string) : forall (i last : Z),
  (last < i)%Z ->
  (forall k, String.get k s = Some c -> (i + Z.of_nat k <= Py.rfind_from c s i last)%Z) /\
  (Py.rfind_from c s i last = last \/ (i <= Py.rfind_from c s i last)%Z).
Proof.
  induction s as [|d s IH]; intros i last Hlt; cbn [Py.rfind_from].
  - split; [intros k H; destruct k; discriminate | now left].
  - destruct (IH (i + 1)%Z (if (d =? c)%char then i else last)) as [Hocc Hres].
    { destruct (d =? c)%char; lia. }
    split.
    + intros [|k] Hk; cbn [String.get] in Hk.
      * injection Hk as ->. rewrite Ascii.eqb_refl in Hres |- *. lia.
      * specialize (Hocc k Hk). lia.
    + destruct (d =? c)%char; lia.
Qed.

(** The extension that [splitext] returns has no slash. *)
Lemma splitext_ext_no_slash (p : string) : no_slash (snd (Py.splitext p)) = true.
Proof.
  unfold Py.splitext.
  destruct (Z.ltb_spec (Py.rfind p "/") (Py.rfind p ".")) as [Hlt|_]; [|reflexivity].
  cbn [andb]. destruct (Py.splitext_scan _ _ _); [|reflexivity].
  cbn [snd]. apply no_slash_get. intros k Hk.
  destruct (Nat.lt_ge_cases k (String.length p - Z.to_nat (Py.rfind p "."))) as [Hin|Hout].
  - rewrite (substring_correct1 p (Z.to_nat (Py.rfind p ".")) _ k Hin) in Hk.
    destruct (rfind_from_bound "/" p 0 (-1) ltac:(lia)) as [Hocc Hres].
    specialize (Hocc _ Hk). unfold Py.rfind in *. lia.
  - rewrite (substring_correct2 p (Z.to_nat (Py.rfind p ".")) _ k Hout) in Hk.
    discriminate.
Qed.

Lemma document_extension_no_slash (attrs : list DocumentAttribute) (ext : string) :
  document_extension attrs = Some ext -> no_slash ext = true.
Proof.
  induction attrs as [|attr rest IH]; cbn [document_extension]; [discriminate|].
  destruct (file_name attr) as [name|]; [|exact IH].
  intros H; injection H as <-. apply splitext_ext_no_slash.
Qed.

(** The name of the stored file: [msg_], the number of the message, and
    an extension without slash. *)
Lemma media_filename_shape (msg : Message) :
  exists ext,
    media_filename_of msg = "msg_" ++ Py.str_int (msg_id msg) ++ ext /\
    no_slash ext = true.
Proof.
  unfold media_filename_of.
  destruct (media msg) as [[photo|doc| |]|].
  - exists ".jpg". split; reflexivity.
  - destruct (document_extension (attributes doc)) as [ext|] eqn:Hext.
    + exists ext. split; [reflexivity|]. exact (document_extension_no_slash _ _ Hext).
    + exists "". split; [|reflexivity]. now rewrite append_empty.
  - exists "". split; [|reflexivity]. now rewrite append_empty.
  - exists "". split; [|reflexivity]. now rewrite append_empty.
  - exists "". split; [|reflexivity]. now rewrite append_empty.
Qed.

(** X19.  Whatever file name a document suggests, the name of the stored
    file has no slash, and the download is asked to store it directly in
    the media directory: the path is the media directory, a slash unless
    the directory already ends with one, and that name. *)
Theorem stored_file_stays_in_media_dir (cfg : Config) (msg : Message) :
  let media_dir := Py.path_join (output_dir cfg) "media" in
  no_slash (media_filename_of msg) = true /\
  media_path_of cfg msg =
  media_dir ++ (if Py.ends_with_sep media_dir then "" else "/") ++ media_filename_of msg.
Proof.
  cbv zeta. destruct (media_filename_shape msg) as (ext & Hname & Hext).
  split.
  - rewrite Hname, !no_slash_app, no_slash_str_int, Hext. reflexivity.
  - unfold media_path_of. rewrite Hname.
    set (dir := Py.path_join (output_dir cfg) "media").
    unfold Py.path_join at 1.
    change (Py.startswith ("msg_" ++ Py.str_int (msg_id msg) ++ ext) "/") with false.
    cbv iota.
    assert (Hdir : dir <> "").
    { unfold dir, Py.path_join. cbn [Py.startswith String.prefix].
      destruct (ascii_dec "/" "m"); [discriminate|].
      destruct ((output_dir cfg =? "") || Py.ends_with_sep (output_dir cfg));
        destruct (output_dir cfg); discriminate. }
    destruct (String.eqb_spec dir "") as [|_]; [contradiction|].
    cbn [orb]. destruct (Py.ends_with_sep dir); reflexivity.
Qed.

(** ** The filter and the maximum size *)

(** X20.  Raising a positive maximum size never refuses more: an item
    accepted under a positive maximum is accepted under every larger
    maximum, and with no maximum at all. *)
Theorem filter_monotone_in_max_size (filter : string) (media_type : option string)
    (media_size smaller larger : Z) :
  (0 < smaller <= larger)%Z ->
  fst (apply_filters filter (Some smaller) media_type media_size) = true ->
  fst (apply_filters filter (Some larger) media_type media_size) = true /\
  fst (apply_filters filter None media_type media_size) = true.
Proof.
  intros Hle. unfold apply_filters.
  destruct (negb (filter =? "all") && _); [discriminate|].
  cbn [andb fst].
  destruct (Z.eqb_spec smaller 0) as [|_]; [lia|].
  destruct (Z.eqb_spec larger 0) as [|_]; [lia|].
  cbn [negb andb].
  destruct (Z.ltb_spec smaller media_size) as [|Hs]; [discriminate|].
  destruct (Z.ltb_spec larger media_size) as [|_]; [lia|].
  intros _. split; reflexivity.
Qed.

Lemma filter_monotone_in_max_size_witness :
  (0 < 5000000 <= 20000000)%Z /\
  fst (apply_filters "video" (Some 5000000%Z) (Some "video") 4000000) = true /\
  fst (apply_filters "video" (Some 20000000%Z) (Some "video") 4000000) = true /\
  fst (apply_filters "video" None (Some "video") 4000000) = true.
Proof.
  split; [lia|]. split; [reflexivity|].
  apply (filter_monotone_in_max_size "video" (Some "video") 4000000 5000000 20000000);
    [lia | reflexivity].
Defined.

(** ** The command line and the run *)

Section MainAndRun.

Context {W : Type}.
Variable client_download_media : W -> Message -> string -> W * DownloadResult.
Variable console_print : string -> option string.

(** X21.  When the command line does not mention [--download-media], the
    export that [main] starts never asks the client for a download. *)
Theorem no_flag_no_download (py_int : string -> option Z) (argv : list string)
    (api_id : Z) (api_hash chat_username : string) (cfg : Config)
    (w : W) (messages : list Message) :
  main py_int argv = Run api_id api_hash chat_username cfg ->
  ~ In "--download-media" argv ->
  events (download_chat client_download_media console_print cfg w messages) = [] /\
  media_count (download_chat client_download_media console_print cfg w messages) = 0.
Proof.
  intros Hmain Hflag.
  assert (Hoff : download_media cfg = false).
  { unfold main in Hmain.
    destruct (Py.mem "--help" argv || Py.mem "-h" argv); [discriminate|].
    destruct (List.length argv <? 4)%nat; [discriminate|].
    destruct (py_int (nth 1 argv "")) as [n|]; [|discriminate].
    destruct (parse_options py_int (skipn 4 argv) default_config) as [cfg0|c] eqn:Hp;
      [|discriminate].
    injection Hmain as _ _ _ <-.
    apply parse_options_keeps in Hp. destruct Hp as (Hd & _).
    rewrite Hd; [reflexivity|]. intros Hin. apply Hflag. eapply In_skipn_In. exact Hin. }
  destruct (process_messages_disabled client_download_media console_print cfg Hoff messages
              (initial_state w)) as (He & _ & Hc).
  unfold download_chat, download_chat_outcome.
  unfold process_messages in He, Hc. rewrite He, Hc. split; reflexivity.
Qed.

End MainAndRun.

Lemma no_flag_no_download_witness :
  events (download_chat Sample.always_failing Sample.console
            (set_output_dir "out" default_config) 0
            [Sample.hello; Sample.photo; Sample.video]) = [] /\
  media_count (download_chat Sample.always_failing Sample.console
                 (set_output_dir "out" default_config) 0
                 [Sample.hello; Sample.photo; Sample.video]) = 0.
Proof.
  apply (no_flag_no_download Sample.always_failing Sample.console decimal_int
           ["telegram_backup.py"; "12345"; "abcdef123456"; "username"; "--output-dir"; "out"]
           12345 "abcdef123456" "username" _ 0 [Sample.hello; Sample.photo; Sample.video]
           eq_refl).
  cbn. intuition discriminate.
Defined.

(** ** The sender as written *)

(** X23.  The sender as it appears in a line: the username when it is a
    non-empty string; otherwise, when the sender has a [first_name], that
    value as an f-string renders it, [None] included, and an empty string
    gives an empty name; and [Unknown] when the sender has no [first_name]
    or the message has no sender. *)
Theorem sender_name_rendered (msg : Message) :
  Py.format (sender_name_of msg) =
  match sender msg with
  | None => "Unknown"
  | Some s =>
      match username s with
      | Some (Py.PyStr (String c rest)) => String c rest
      | _ =>
          match first_name s with
          | None => "Unknown"
          | Some Py.PyNone => "None"
          | Some (Py.PyStr name) => name
          end
      end
  end.
Proof.
  unfold sender_name_of.
  destruct (sender msg) as [s|]; [|reflexivity].
  destruct (username s) as [[|[|c rest]]|]; cbn [Py.getattr Py.or_ Py.truthy negb String.eqb];
    try reflexivity;
    destruct (first_name s) as [[|name]|]; reflexivity.
Qed.
